(** * main.py: state-representation learning and fitted-Q-iteration experiment

    Shallow embedding of [src/code/main.py].  The script is a straight-line
    program with one nested loop that drives external collaborators
    ([tools], [jonschkowski_priors], [fqiteration], [gym_env], matplotlib,
    scikit-learn).  Those modules are not part of the script: they are
    taken as an interface ([Collaborators]) of state transformers over an
    abstract [World], and every call the script makes is appended to a log,
    so that what the script does, in which order and with which arguments,
    can be stated and proved.

    Floating-point values are IEEE-754 binary64 numbers ([spec_float] with
    [prec = 53], [emax = 1024]); Python integers are [Z]. *)

From Stdlib Require Import ZArith Lia Ascii String.
From Stdlib Require Import Floats.SpecFloat.
From stdpp Require Import base list strings pretty.

Open Scope Z_scope.

(** ** Floating-point numbers (Python [float], numpy [float64]) *)

Module F64.

Abbreviation float := spec_float.

Definition prec : Z := 53.
Definition emax : Z := 1024.

(** [0.0], [1.0], [0.9] (0x1.ccccccccccccdp-1) and [1e-6]
    (0x1.0c6f7a0b5ed8dp-20) as they are stored in binary64. *)
Definition zero : float := S754_zero false.
Definition one : float := S754_finite false 4503599627370496 (-52).
Definition f0_9 : float := S754_finite false 8106479329266893 (-53).
Definition f1em6 : float := S754_finite false 4722366482869645 (-72).

Definition leb (x y : float) : bool := SFleb x y.
Definition ltb (x y : float) : bool := SFltb x y.
Definition eqb (x y : float) : bool := SFeqb x y.
Definition div (x y : float) : float := SFdiv prec emax x y.
Definition add (x y : float) : float := SFadd prec emax x y.
Definition mul (x y : float) : float := SFmul prec emax x y.

(** [math.isfinite]: neither an infinity nor a NaN. *)
Definition is_finite (x : float) : bool :=
  match x with
  | S754_zero _ | S754_finite _ _ _ => true
  | S754_infinity _ | S754_nan => false
  end.

(** [x == 0.0]: either signed zero. *)
Definition is_zero (x : float) : bool :=
  match x with
  | S754_zero _ => true
  | _ => false
  end.

(** [float(b)] for a Python bool, as numpy promotes it in [array * mask]. *)
Definition of_bool (b : bool) : float := if b then one else zero.

End F64.

Import F64.

(** ** Exceptions and outcomes *)

Inductive exn : Type :=
| Exception (msg : string)
| ValueError (msg : string)
| IndexError (msg : string)
| NameError (name : string).

Inductive outcome (A : Type) : Type :=
| Ok (a : A)
| Raise (e : exn).
Arguments Ok {A} a.
Arguments Raise {A} e.

Definition is_ok {A} (r : outcome A) : bool :=
  match r with Ok _ => true | Raise _ => false end.

(** ** Python values the script inspects *)

(** The ['global_pov'] entry of the environment arguments is [None], a
    bool or a number. *)
Inductive pyval : Type :=
| PyNone
| PyBool (b : bool)
| PyFloat (f : float).

(** Truth value of an object ([if x], [x and y]). *)
Definition truthy (v : pyval) : bool :=
  match v with
  | PyNone => false
  | PyBool b => b
  | PyFloat f => negb (is_zero f)
  end.

(** [v != x] for a float [x]; a bool compares as [0.0] or [1.0]. *)
Definition py_ne_float (v : pyval) (x : float) : bool :=
  match v with
  | PyNone => true
  | PyBool b => negb (F64.eqb (of_bool b) x)
  | PyFloat f => negb (F64.eqb f x)
  end.

(** The [global_pov] argument handed to the environment. *)
Inductive pov : Type :=
| PovNone
| PovTrue
| PovTuple (x : float) (y : pyval) (z : float).

(** Truth value of a string: non-empty. *)
Definition str_truthy (s : string) : bool :=
  match s with
  | EmptyString => false
  | String _ _ => true
  end.

(** [s[-1]] of a non-empty string. *)
Fixpoint last_char (c : ascii) (s : string) : ascii :=
  match s with
  | EmptyString => c
  | String c' s' => last_char c' s'
  end.

Definition str_of_int (z : Z) : string := pretty z.

(** [range(n)]. *)
Definition range (n : Z) : list Z := map Z.of_nat (seq 0 (Z.to_nat n)).

(** [np.arange(a, b)] on integers. *)
Definition arange (a b : Z) : list Z := map (fun k => a + k) (range (b - a)).

(** ** numpy arrays of floats *)

Abbreviation array1 := (list float).
Abbreviation array2 := (list (list float)).
Abbreviation array4 := (list (list (list (list float)))).

(** A numpy index into an axis of length [len]: negative indices count
    from the end, anything else out of range raises [IndexError]. *)
Definition np_index (len : nat) (i : Z) : outcome nat :=
  let i' := if i <? 0 then i + Z.of_nat len else i in
  if (0 <=? i') && (i' <? Z.of_nat len) then Ok (Z.to_nat i')
  else Raise (IndexError "index is out of bounds").

(** [np.zeros(n)] and [np.zeros([d0, d1, d2, d3])]. *)
Definition np_zeros1 (n : Z) : outcome array1 :=
  if n <? 0 then Raise (ValueError "negative dimensions are not allowed")
  else Ok (replicate (Z.to_nat n) zero).

Definition np_zeros4 (d0 d1 d2 d3 : Z) : outcome array4 :=
  if (d0 <? 0) || (d1 <? 0) || (d2 <? 0) || (d3 <? 0)
  then Raise (ValueError "negative dimensions are not allowed")
  else Ok (replicate (Z.to_nat d0)
             (replicate (Z.to_nat d1)
                (replicate (Z.to_nat d2)
                   (replicate (Z.to_nat d3) zero)))).

(** [a[i] = v] on a one-dimensional array. *)
Definition np_set1 (a : array1) (i : Z) (v : float) : outcome array1 :=
  match np_index (length a) i with
  | Ok k => Ok (<[k := v]> a)
  | Raise e => Raise e
  end.

(** Rows of a row-major buffer: [rows] chunks of [cols] elements. *)
Fixpoint chunks (rows cols : nat) (l : list float) : array2 :=
  match rows with
  | O => []
  | S r => take cols l :: chunks r cols (drop cols l)
  end.

(** [np.reshape(a, [rows, cols])], [a] given by its elements in row-major
    order: the size has to match. *)
Definition np_reshape2 (a : list float) (rows cols : Z) : outcome array2 :=
  if (0 <=? rows) && (0 <=? cols) && (Z.of_nat (length a) =? rows * cols)
  then Ok (chunks (Z.to_nat rows) (Z.to_nat cols) a)
  else Raise (ValueError "cannot reshape array").

Definition shape2 (m : array2) (rows cols : nat) : Prop :=
  length m = rows /\ Forall (fun r => length r = cols) m.

Definition shape4 (t : array4) (d0 d1 d2 d3 : nat) : Prop :=
  length t = d0
  /\ Forall (fun plane => length plane = d1
                          /\ Forall (fun m => shape2 m d2 d3) plane) t.

(** [t[e, q, i, j]]. *)
Definition cell4 (t : array4) (e q i j : nat) : option float :=
  plane ← t !! e; m ← plane !! q; row ← m !! i; row !! j.

(** [t[i, j, :, :] = m] where the slot and [m] have the same shape. *)
Definition np_set_slice (t : array4) (i j : Z) (m : array2) : outcome array4 :=
  match np_index (length t) i with
  | Raise e => Raise e
  | Ok ki =>
      let plane := default [] (t !! ki) in
      match np_index (length plane) j with
      | Raise e => Raise e
      | Ok kj => Ok (<[ki := <[kj := m]> plane]> t)
      end
  end.

(** Elementwise operation on two one-dimensional arrays with numpy's
    broadcasting: equal lengths, or one of them of length one. *)
Definition np_zip (f : float -> float -> float) (a b : array1) : outcome array1 :=
  if (length a =? length b)%nat then Ok (zip_with f a b)
  else match a, b with
       | [x], _ => Ok (map (f x) b)
       | _, [y] => Ok (map (fun x => f x y) a)
       | _, _ => Raise (ValueError "operands could not be broadcast together")
       end.

(** [a / w] for an array and a Python float: IEEE division, no exception
    (numpy only warns, and the script silences warnings). *)
Definition np_div_scalar (a : array1) (w : float) : array1 :=
  map (fun x => F64.div x w) a.

(** [l[i]] on a Python list. *)
Definition list_index {A} (l : list A) (i : Z) : outcome A :=
  let i' := if i <? 0 then i + Z.of_nat (length l) else i in
  if (0 <=? i') && (i' <? Z.of_nat (length l)) then
    match l !! Z.to_nat i' with
    | Some x => Ok x
    | None => Raise (IndexError "list index out of range")
    end
  else Raise (IndexError "list index out of range").

(** ** Data exchanged with the collaborators

    [Obj] is the type of the Python objects the script only passes around
    (the Keras model, arrays of states, learners, policies, agents, the
    environment and its controller, opaque configuration values). *)

(** [history.history]: the validation losses of a training call, one
    entry per epoch. *)
Record History : Type := {
  val_t_loss : list float;
  val_p_loss : list float;
  val_c_loss : list float;
  val_r_loss : list float }.

(** The dictionary returned by [run_in_env].  [stats_rewards] lists the
    elements of [np.array(stats['rewards'])] in row-major order. *)
Record Stats : Type := {
  stats_rewards : list float;
  stats_reward_ep : list float }.

(** [training_data['args'].item(0)]: the arguments of the environment the
    data was recorded in. *)
Record EnvArgs (Obj : Type) : Type := {
  ea_controller : Obj;
  ea_speed : Obj;
  ea_dtheta : Obj;
  ea_fixed_point : Obj;
  ea_xztrange : list Obj;
  ea_noise_ratio : Obj;
  ea_auto_global_pov : bool;
  ea_global_pov : pyval;
  ea_world_name : Obj;
  ea_world_size : Obj;
  ea_texture : Obj;
  ea_obssize : Obj;
  ea_orthogonal : bool;
  ea_multiview : Obj;
  ea_focal : Obj;
  ea_distractors : Obj }.
Arguments ea_controller {Obj} _.
Arguments ea_speed {Obj} _.
Arguments ea_dtheta {Obj} _.
Arguments ea_fixed_point {Obj} _.
Arguments ea_xztrange {Obj} _.
Arguments ea_noise_ratio {Obj} _.
Arguments ea_auto_global_pov {Obj} _.
Arguments ea_global_pov {Obj} _.
Arguments ea_world_name {Obj} _.
Arguments ea_world_size {Obj} _.
Arguments ea_texture {Obj} _.
Arguments ea_obssize {Obj} _.
Arguments ea_orthogonal {Obj} _.
Arguments ea_multiview {Obj} _.
Arguments ea_focal {Obj} _.
Arguments ea_distractors {Obj} _.

(** The loaded data file. *)
Record Dataset (Obj : Type) : Type := {
  td_observations : list Obj;
  td_args : EnvArgs Obj;
  td_actions_int : Obj;
  td_num_actions : Z;
  td_rewards : array1;
  td_episode_starts : list bool }.
Arguments td_observations {Obj} _.
Arguments td_args {Obj} _.
Arguments td_actions_int {Obj} _.
Arguments td_num_actions {Obj} _.
Arguments td_rewards {Obj} _.
Arguments td_episode_starts {Obj} _.

(** The parsed command line ([args]). *)
Record Args : Type := {
  training_data : string;
  test_data : string;
  qlearning : bool;
  recordto : string;
  num_epochs : Z;
  learning_rate : float;
  l1_reg : float;
  state_dim : Z;
  validation_ratio : float;
  batch_size : Z;
  seed : option Z;
  tanh_units : option Z;
  weights : list float;
  display : bool;
  visible_train : bool;
  verbose : bool }.

Definition set_recordto (r : string) (a : Args) : Args :=
  {| training_data := training_data a; test_data := test_data a;
     qlearning := qlearning a; recordto := r; num_epochs := num_epochs a;
     learning_rate := learning_rate a; l1_reg := l1_reg a;
     state_dim := state_dim a; validation_ratio := validation_ratio a;
     batch_size := batch_size a; seed := seed a; tanh_units := tanh_units a;
     weights := weights a; display := display a;
     visible_train := visible_train a; verbose := verbose a |}.

Definition set_weights (ws : list float) (a : Args) : Args :=
  {| training_data := training_data a; test_data := test_data a;
     qlearning := qlearning a; recordto := recordto a;
     num_epochs := num_epochs a; learning_rate := learning_rate a;
     l1_reg := l1_reg a; state_dim := state_dim a;
     validation_ratio := validation_ratio a; batch_size := batch_size a;
     seed := seed a; tanh_units := tanh_units a; weights := ws;
     display := display a; visible_train := visible_train a;
     verbose := verbose a |}.

(** ** The calls the script makes

    One constructor per call site, with the arguments the script passes
    and, where the script uses it, the value the collaborator returned
    ([ret]). *)
Inductive event (Obj : Type) : Type :=
| OsMakedirs (path : string) (exist_ok : bool)
| TimeTime (ret : Z)
| NpRandomSeed (s : Z)
| LoadData (path : string) (ret : Dataset Obj)
| PriorsModel (obs_shape : list Z) (state_dim : Z) (learning_rate l1_reg : float)
    (loss_weights : list float) (noise_stddev : float) (tanh_units : option Z)
    (ret : Obj)
| LearnStates (model : Obj) (num_epochs batch_size : Z) (recordto : string)
    (display : bool) (validation_ratio : float) (ret : Obj * History)
| ComputeStates (test_data : string) (model : Obj) (recordto : string)
    (display : bool)
| ControllerMake (name speed dtheta fixed_point : Obj) (xzrange : list Obj)
    (thetarange noise_ratio : Obj) (int_actions : bool) (ret : Obj)
| MakeRoundBotEnv (world_name world_size texture obssize : Obj)
    (winsize : option (Z * Z)) (controller : Obj) (global_pov : pov)
    (visible perspective : bool) (multiview focal : Obj) (max_step : Z)
    (random_start : bool) (distractors observation_transformation : Obj)
    (ret : Obj)
| PlotRepresentation (states : Obj) (rewards : array1) (name : string)
    (add_colorbar : bool) (state_dim : Z) (plot_name recordto : string)
    (display : bool)
| FittedQIteration (n_rbf n_actions : Z) (ret : Obj)
| FitSk (qit states actions_int : Obj) (rewards : array1) (gamma : float)
    (n_iterations : Z) (recompute_mapping : bool) (ret : Obj)
| PlugPolicy (state_policy action_space : Obj) (ret : Obj)
| RoundBotAgent (policy : Obj) (ret : Obj)
| RunInEnv (agent env : Obj) (n_episodes : Z) (seed : option Z) (ret : Stats)
| PyPrint (q_learning n_test_episodes : Z) (reward_ep : list float)
| PltFigure (name : string)
| PltAxes (call : string)
| PltPlot (x : list Z) (y : array1)
| PltLabel (call text : string)
| PltLegend (labels : list string) (loc : string)
| PltShow
| Savefig (figure path : string)
| PcaFitTransform (n_components : Z) (states : Obj) (ret : array1)
| PltBar (x : list Z) (height : array1)
| PltScatter (x : list Z) (performance : array4)
| Input (prompt : string).
Arguments OsMakedirs {Obj}.
Arguments TimeTime {Obj}.
Arguments NpRandomSeed {Obj}.
Arguments LoadData {Obj}.
Arguments PriorsModel {Obj}.
Arguments LearnStates {Obj}.
Arguments ComputeStates {Obj}.
Arguments ControllerMake {Obj}.
Arguments MakeRoundBotEnv {Obj}.
Arguments PlotRepresentation {Obj}.
Arguments FittedQIteration {Obj}.
Arguments FitSk {Obj}.
Arguments PlugPolicy {Obj}.
Arguments RoundBotAgent {Obj}.
Arguments RunInEnv {Obj}.
Arguments PyPrint {Obj}.
Arguments PltFigure {Obj}.
Arguments PltAxes {Obj}.
Arguments PltPlot {Obj}.
Arguments PltLabel {Obj}.
Arguments PltLegend {Obj}.
Arguments PltShow {Obj}.
Arguments Savefig {Obj}.
Arguments PcaFitTransform {Obj}.
Arguments PltBar {Obj}.
Arguments PltScatter {Obj}.
Arguments Input {Obj}.

(** ** The collaborators

    Everything outside the script lives in [World] (file system, clock,
    random generators, network weights, simulator, figures).  A call that
    returns something the script uses is a function from the world to a
    new world and the returned value; the other calls act on the world
    through [effect].  Attribute reads are pure accessors. *)
Class Collaborators : Type := {
  Obj : Type;
  World : Type;
  effect : event Obj -> World -> World;
  time_time : World -> World * Z;
  tools_load_data : string -> World -> World * Dataset Obj;
  jonschkowski_priors_Priors_model :
    list Z -> Z -> float -> float -> list float -> float -> option Z ->
    World -> World * Obj;
  tools_learn_states :
    Dataset Obj -> Obj -> Z -> Z -> string -> bool -> float ->
    World -> World * (Obj * History);
  round_bot_controller_make :
    Obj -> Obj -> Obj -> Obj -> list Obj -> Obj -> Obj -> bool ->
    World -> World * Obj;
  run_round_bot_make_round_bot_env :
    Obj -> Obj -> Obj -> Obj -> option (Z * Z) -> Obj -> pov -> bool -> bool ->
    Obj -> Obj -> Z -> bool -> Obj -> Obj -> World -> World * Obj;
  fqi_Fitted_QIteration : Z -> Z -> World -> World * Obj;
  fit_sk : Obj -> Obj -> Obj -> array1 -> float -> Z -> bool -> World -> World * Obj;
  policy_Plug_policy : Obj -> Obj -> World -> World * Obj;
  agent_RoundBotAgent : Obj -> World -> World * Obj;
  run_in_env : Obj -> Obj -> Z -> option Z -> World -> World * Stats;
  PCA_fit_transform : Z -> Obj -> World -> World * array1;
  (* attribute reads *)
  shape : Obj -> list Z;            (* [a.shape] *)
  tail_rows : Obj -> Obj;           (* [a[1:]] *)
  model_state_dim : Obj -> Z;       (* [jp_model.state_dim] *)
  action_space_int : Obj -> Obj     (* [env.controller.action_space_int] *) }.

(** ** The script *)

Section Script.

Context `{C : Collaborators}.

(** *** State, exceptions and the log of calls *)

Record state : Type := {
  world : World;
  log : list (event Obj) }.

Definition M (A : Type) : Type := state -> state * outcome A.

#[local] Instance M_ret : MRet M := fun A a st => (st, Ok a).

#[local] Instance M_bind : MBind M := fun A B k m st =>
  match m st with
  | (st', Ok a) => k a st'
  | (st', Raise e) => (st', Raise e)
  end.

Definition raise {A} (e : exn) : M A := fun st => (st, Raise e).

Definition lift {A} (r : outcome A) : M A := fun st => (st, r).

(** A call whose result the script does not use. *)
Definition perform (ev : event Obj) : M unit := fun st =>
  ({| world := effect ev (world st); log := log st ++ [ev] |}, Ok tt).

(** A call whose result the script uses; [mk] is its entry in the log. *)
Definition call {R} (f : World -> World * R) (mk : R -> event Obj) : M R :=
  fun st =>
    let '(w, r) := f (world st) in
    ({| world := w; log := log st ++ [mk r] |}, Ok r).

Definition when (b : bool) (m : M unit) : M unit :=
  if b then m else mret tt.

(** [for x in xs: s = body(x, s)]. *)
Fixpoint for_each {A S} (xs : list A) (body : A -> S -> M S) (s : S) : M S :=
  match xs with
  | [] => mret s
  | x :: xs' => s' ← body x s; for_each xs' body s'
  end.

(** *** Lines 60-76: checks on the arguments and seeding *)

Definition nl : string := String "010"%char EmptyString.

Definition msg_record_or_display : string :=
  nl +:+ "Please either record (-r) or display (-dis) results ! (or both) " +:+ nl.
Definition msg_record_qlearning : string :=
  nl +:+ "Please give a record folder (-r) for saving results of qlearning " +:+ nl.
Definition msg_validation_ratio : string :=
  "Wrong validation_ratio parameter, must be in range ]0,1[ ".

(** [recordto] gets a trailing slash unless it is empty or has one. *)
Definition normalize_recordto (r : string) : string :=
  match r with
  | EmptyString => r
  | String c s => if Ascii.eqb (last_char c s) "/"%char then r else r +:+ "/"
  end.

(** [np.random.seed(s)]: the legacy seeding accepts [0 <= s < 2**32]. *)
Definition np_random_seed (s : Z) : M unit :=
  if (0 <=? s) && (s <? 2 ^ 32) then perform (NpRandomSeed s)
  else raise (ValueError "Seed must be between 0 and 2**32 - 1").

(** [args.seed if args.seed else int(time.time())]. *)
Definition seed_value (a : Args) : M Z :=
  match seed a with
  | Some s => if s =? 0 then call time_time TimeTime else mret s
  | None => call time_time TimeTime
  end.

(** Line 76. *)
Definition seed_random (a : Args) : M unit :=
  s ← seed_value a;
  np_random_seed s.

(** Lines 60-76: the destination gets its slash and is created, the
    three checks run in the order of the script, the generator is seeded.
    Returns the arguments with the destination as the rest of the script
    sees it. *)
Definition configure (a : Args) : M Args :=
  let a := set_recordto (normalize_recordto (recordto a)) a in
  _ ← when (str_truthy (recordto a)) (perform (OsMakedirs (recordto a) true));
  if negb (str_truthy (recordto a) || display a) then
    raise (Exception msg_record_or_display)
  else if qlearning a && negb (str_truthy (recordto a)) then
    raise (Exception msg_record_qlearning)
  else if F64.leb (validation_ratio a) zero || F64.leb one (validation_ratio a) then
    raise (ValueError msg_validation_ratio)
  else
    _ ← seed_random a;
    mret a.

(** *** Lines 80-90: data and model *)

Definition load_and_build (a : Args) : M (Dataset Obj * Obj) :=
  training_data ← call (tools_load_data (training_data a)) (LoadData (training_data a));
  obs0 ← lift (list_index (td_observations training_data) 0);
  jp_model ← call
    (jonschkowski_priors_Priors_model (shape obs0) (state_dim a)
       (learning_rate a) (l1_reg a) (weights a) f1em6 (tanh_units a))
    (PriorsModel (shape obs0) (state_dim a) (learning_rate a) (l1_reg a)
       (weights a) f1em6 (tanh_units a));
  mret (training_data, jp_model).

(** *** Variables that are live after the experiment

    [states] is unbound until the first training call returns.
    [test_performance] exists in Q-learning mode only, and is read in
    Q-learning mode only; elsewhere the field is not used. *)

Record Vars : Type := {
  states : option Obj;
  temporalcoherence_loss_record : array1;
  proportionality_loss_record : array1;
  causality_loss_record : array1;
  repeatability_loss_record : array1;
  test_performance : array4 }.

(** *** Lines 94-116: plain learning of the representation *)

Definition simple_learning (a : Args) (training_data : Dataset Obj)
    (jp_model : Obj) : M Vars :=
  '(st, history) ← call
    (tools_learn_states training_data jp_model (num_epochs a) (batch_size a)
       (recordto a) (display a) (validation_ratio a))
    (LearnStates jp_model (num_epochs a) (batch_size a) (recordto a)
       (display a) (validation_ratio a));
  _ ← when (str_truthy (test_data a))
        (perform (ComputeStates (test_data a) jp_model (recordto a) (display a)));
  mret {| states := Some st;
          temporalcoherence_loss_record := val_t_loss history;
          proportionality_loss_record := val_p_loss history;
          causality_loss_record := val_c_loss history;
          repeatability_loss_record := val_r_loss history;
          test_performance := [] |}.

(** *** Lines 122-249: the Q-learning experiment *)

Definition n_qlearnings : Z := 10.
Definition n_test_episodes : Z := 20.
Definition n_test_steps : Z := 25.
Definition n_rbf : Z := 100.

(** Lines 163-169: the point of view handed to the environment. *)
Definition global_pov_of (env_args : EnvArgs Obj) : pov :=
  let gp := if ea_auto_global_pov env_args then PyBool true
            else ea_global_pov env_args in
  if py_ne_float gp one then
    if truthy gp && py_ne_float gp zero then PovTuple zero gp zero
    else PovNone
  else PovTrue.

(** Lines 150-187: controller and environment. *)
Definition make_env (a : Args) (training_data : Dataset Obj) (jp_model : Obj)
    : M Obj :=
  let env_args := td_args training_data in
  thetarange ← lift (list_index (ea_xztrange env_args) 2);
  controller ← call
    (round_bot_controller_make (ea_controller env_args) (ea_speed env_args)
       (ea_dtheta env_args) (ea_fixed_point env_args)
       (take 2 (ea_xztrange env_args)) thetarange (ea_noise_ratio env_args) true)
    (ControllerMake (ea_controller env_args) (ea_speed env_args)
       (ea_dtheta env_args) (ea_fixed_point env_args)
       (take 2 (ea_xztrange env_args)) thetarange (ea_noise_ratio env_args) true);
  let winsize := if visible_train a then Some (200, 200) else None in
  call
    (run_round_bot_make_round_bot_env (ea_world_name env_args)
       (ea_world_size env_args) (ea_texture env_args) (ea_obssize env_args)
       winsize controller (global_pov_of env_args) (visible_train a)
       (negb (ea_orthogonal env_args)) (ea_multiview env_args)
       (ea_focal env_args) n_test_steps true (ea_distractors env_args) jp_model)
    (MakeRoundBotEnv (ea_world_name env_args)
       (ea_world_size env_args) (ea_texture env_args) (ea_obssize env_args)
       winsize controller (global_pov_of env_args) (visible_train a)
       (negb (ea_orthogonal env_args)) (ea_multiview env_args)
       (ea_focal env_args) n_test_steps true (ea_distractors env_args) jp_model).

(** Lines 232-249: one fitted-Q-iteration trial; returns the updated
    [test_performance]. *)
Definition qlearning_trial (a : Args) (training_data : Dataset Obj)
    (env st : Obj) (learning_epoch q_learning : Z) (perf : array4) : M array4 :=
  qit ← call (fqi_Fitted_QIteration n_rbf (td_num_actions training_data))
             (FittedQIteration n_rbf (td_num_actions training_data));
  state_policy ← call
    (fit_sk qit st (td_actions_int training_data) (td_rewards training_data)
       f0_9 10 true)
    (FitSk qit st (td_actions_int training_data) (td_rewards training_data)
       f0_9 10 true);
  state_policy ← call (policy_Plug_policy state_policy (action_space_int env))
                      (PlugPolicy state_policy (action_space_int env));
  rb_agent ← call (agent_RoundBotAgent state_policy) (RoundBotAgent state_policy);
  stats ← call (run_in_env rb_agent env n_test_episodes None)
               (RunInEnv rb_agent env n_test_episodes None);
  m ← lift (np_reshape2 (stats_rewards stats) n_test_episodes n_test_steps);
  perf ← lift (np_set_slice perf learning_epoch q_learning m);
  _ ← when (verbose a)
        (perform (PyPrint q_learning n_test_episodes (stats_reward_ep stats)));
  mret perf.

(** Line 221: [rewards[:-1] * (episode_starts[1:] == False)]. *)
Definition masked_rewards (training_data : Dataset Obj) : outcome array1 :=
  np_zip F64.mul
    (removelast (td_rewards training_data))
    (map (fun b => of_bool (negb b)) (tail (td_episode_starts training_data))).

(** Line 217. *)
Definition plot_epoch (learning_epoch : Z) : bool :=
  (learning_epoch =? 0) || ((learning_epoch + 1) mod 5 =? 0).

(** Lines 216-228. *)
Definition plot_representation (a : Args) (training_data : Dataset Obj)
    (jp_model st : Obj) (learning_epoch : Z) : M unit :=
  rewards ← lift (masked_rewards training_data);
  perform
    (PlotRepresentation (tail_rows st) rewards
       ("Observation-State-Mapping for " +:+ str_of_int (learning_epoch + 1)
          +:+ "learning epoch")
       true (Z.min (model_state_dim jp_model) 3)
       ("_train_" +:+ str_of_int (learning_epoch + 1))
       (recordto a) false).

(** Lines 198-249: the body of the outer loop. *)
Definition learning_iteration (a : Args) (training_data : Dataset Obj)
    (jp_model env : Obj) (learning_epoch : Z) (v : Vars) : M Vars :=
  '(st, history) ← call
    (tools_learn_states training_data jp_model 1 (batch_size a) ""
       (display a) (validation_ratio a))
    (LearnStates jp_model 1 (batch_size a) "" (display a) (validation_ratio a));
  lt ← lift (list_index (val_t_loss history) 0);
  rec_t ← lift (np_set1 (temporalcoherence_loss_record v) learning_epoch lt);
  lp ← lift (list_index (val_p_loss history) 0);
  rec_p ← lift (np_set1 (proportionality_loss_record v) learning_epoch lp);
  lc ← lift (list_index (val_c_loss history) 0);
  rec_c ← lift (np_set1 (causality_loss_record v) learning_epoch lc);
  lr ← lift (list_index (val_r_loss history) 0);
  rec_r ← lift (np_set1 (repeatability_loss_record v) learning_epoch lr);
  _ ← when (plot_epoch learning_epoch)
        (plot_representation a training_data jp_model st learning_epoch);
  perf ← for_each (range n_qlearnings)
            (qlearning_trial a training_data env st learning_epoch)
            (test_performance v);
  mret {| states := Some st;
          temporalcoherence_loss_record := rec_t;
          proportionality_loss_record := rec_p;
          causality_loss_record := rec_c;
          repeatability_loss_record := rec_r;
          test_performance := perf |}.

(** Lines 198-249: the outer loop. *)
Definition experiment_loop (a : Args) (training_data : Dataset Obj)
    (jp_model env : Obj) (v : Vars) : M Vars :=
  for_each (range (num_epochs a))
    (learning_iteration a training_data jp_model env) v.

Definition qlearning_experiment (a : Args) (training_data : Dataset Obj)
    (jp_model : Obj) : M Vars :=
  perf ← lift (np_zeros4 (num_epochs a) n_qlearnings n_test_episodes n_test_steps);
  env ← make_env a training_data jp_model;
  rec_t ← lift (np_zeros1 (num_epochs a));
  rec_p ← lift (np_zeros1 (num_epochs a));
  rec_c ← lift (np_zeros1 (num_epochs a));
  rec_r ← lift (np_zeros1 (num_epochs a));
  experiment_loop a training_data jp_model env
    {| states := None;
       temporalcoherence_loss_record := rec_t;
       proportionality_loss_record := rec_p;
       causality_loss_record := rec_c;
       repeatability_loss_record := rec_r;
       test_performance := perf |}.

(** *** Lines 252-326: plots *)

(** Lines 257-260: the recorded losses divided by their weights. *)
Definition unweight_losses (a : Args) (v : Vars) : M Vars :=
  w2 ← lift (list_index (weights a) 2);
  let rec_c := np_div_scalar (causality_loss_record v) w2 in
  w3 ← lift (list_index (weights a) 3);
  let rec_r := np_div_scalar (repeatability_loss_record v) w3 in
  w1 ← lift (list_index (weights a) 1);
  let rec_p := np_div_scalar (proportionality_loss_record v) w1 in
  w0 ← lift (list_index (weights a) 0);
  let rec_t := np_div_scalar (temporalcoherence_loss_record v) w0 in
  mret {| states := states v;
          temporalcoherence_loss_record := rec_t;
          proportionality_loss_record := rec_p;
          causality_loss_record := rec_c;
          repeatability_loss_record := rec_r;
          test_performance := test_performance v |}.

Definition show_and_save (a : Args) (figure file : string) : M unit :=
  _ ← when (display a) (perform PltShow);
  when (str_truthy (recordto a)) (perform (Savefig figure (recordto a +:+ file))).

(** Lines 263-283: the stacked losses. *)
Definition plot_losses (a : Args) (v : Vars) : M unit :=
  let x := arange 1 (num_epochs a + 1) in
  let rec_t := temporalcoherence_loss_record v in
  let rec_p := proportionality_loss_record v in
  let rec_c := causality_loss_record v in
  let rec_r := repeatability_loss_record v in
  _ ← perform (PltFigure "Loss");
  _ ← perform (PltAxes "gca");
  _ ← perform (PltAxes "set_ylim");
  tp ← lift (np_zip F64.add rec_t rec_p);
  tpr ← lift (np_zip F64.add tp rec_r);
  tprc ← lift (np_zip F64.add tpr rec_c);
  _ ← perform (PltPlot x tprc);
  pr ← lift (np_zip F64.add rec_p rec_r);
  prc ← lift (np_zip F64.add pr rec_c);
  _ ← perform (PltPlot x prc);
  rc ← lift (np_zip F64.add rec_r rec_c);
  _ ← perform (PltPlot x rc);
  _ ← perform (PltPlot x rec_c);
  _ ← perform (PltLabel "title" "Model loss");
  _ ← perform (PltLabel "ylabel" "Loss (stacked)");
  _ ← perform (PltLabel "xlabel" "Epoch");
  _ ← perform (PltLegend ["temporalcoherence_loss"; "proportionality_loss";
                          "repeatability_loss"; "causality_loss"] "upper right");
  show_and_save a "Loss"
    ((if negb (qlearning a) then "loss_history" else "loss_history_ql") +:+ ".png").

(** Lines 289-302: variance explained by the principal components. *)
Definition plot_pca (a : Args) (v : Vars) : M unit :=
  match states v with
  | None => raise (NameError "states")
  | Some st =>
      n ← lift (list_index (shape st) 1);
      ratio ← call (PCA_fit_transform n st) (PcaFitTransform n st);
      _ ← perform (PltFigure "PCA");
      _ ← perform (PltBar (arange 1 (n + 1)) ratio);
      _ ← perform (PltLabel "title" "PCA variance");
      _ ← perform (PltLabel "ylabel" "Normalized eigenvalue");
      _ ← perform (PltLabel "xlabel" "Principal component");
      show_and_save a "PCA" "PCA_variance.png"
  end.

(** [np.repeat(x, n)]. *)
Definition np_repeat (x : list Z) (n : Z) : list Z :=
  flat_map (fun e => replicate (Z.to_nat n) e) x.

(** Lines 308-322: the rewards of the trials.  The ordinates are numpy's
    reduction of [test_performance] (sum over the steps, mean over the
    episodes); the log keeps the tensor they are computed from. *)
Definition plot_rewards (a : Args) (v : Vars) : M unit :=
  when (qlearning a)
    (_ ← perform (PltFigure "rewards");
     _ ← perform (PltAxes "set_ylim");
     _ ← perform (PltScatter (np_repeat (arange 1 (num_epochs a + 1)) n_qlearnings)
                    (test_performance v));
     _ ← perform (PltLabel "title" "Q fitted iteration performance");
     _ ← perform (PltLabel "ylabel" "Average sum of rewards");
     _ ← perform (PltLabel "xlabel" "Epoch");
     show_and_save a "rewards" "ql_rewards.png").

Definition plotting (a : Args) (v : Vars) : M unit :=
  v ← unweight_losses a v;
  _ ← plot_losses a v;
  _ ← plot_pca a v;
  _ ← plot_rewards a v;
  when (display a) (perform (Input "Press any key to exit plotting")).

(** *** The whole script *)

Definition experiment (a : Args) (training_data : Dataset Obj) (jp_model : Obj)
    : M Vars :=
  if negb (qlearning a) then simple_learning a training_data jp_model
  else qlearning_experiment a training_data jp_model.

Definition main (a : Args) : M unit :=
  a ← configure a;
  '(training_data, jp_model) ← load_and_build a;
  v ← experiment a training_data jp_model;
  plotting a v.

(** ** What a run of the experiment looks like

    The values the collaborators returned during one trial and during one
    epoch, and the calls the script logs for them.  The theorems below
    show that the log of [qlearning_experiment] is made of these. *)

Record trial_run : Type := {
  tr_qit : Obj;
  tr_policy : Obj;
  tr_plugged : Obj;
  tr_agent : Obj;
  tr_stats : Stats }.

Record epoch_run : Type := {
  ep_states : Obj;
  ep_history : History;
  ep_trials : list trial_run }.

Definition trial_log (a : Args) (training_data : Dataset Obj) (env st : Obj)
    (q_learning : Z) (t : trial_run) : list (event Obj) :=
  [ FittedQIteration n_rbf (td_num_actions training_data) (tr_qit t);
    FitSk (tr_qit t) st (td_actions_int training_data)
      (td_rewards training_data) f0_9 10 true (tr_policy t);
    PlugPolicy (tr_policy t) (action_space_int env) (tr_plugged t);
    RoundBotAgent (tr_plugged t) (tr_agent t);
    RunInEnv (tr_agent t) env n_test_episodes None (tr_stats t) ]
  ++ (if verbose a
      then [PyPrint q_learning n_test_episodes (stats_reward_ep (tr_stats t))]
      else []).

Fixpoint trials_log (a : Args) (training_data : Dataset Obj) (env st : Obj)
    (q_learning : Z) (ts : list trial_run) : list (event Obj) :=
  match ts with
  | [] => []
  | t :: ts' =>
      trial_log a training_data env st q_learning t
      ++ trials_log a training_data env st (q_learning + 1) ts'
  end.

Definition plot_log (a : Args) (jp_model st : Obj) (masked : array1)
    (learning_epoch : Z) : list (event Obj) :=
  if plot_epoch learning_epoch then
    [ PlotRepresentation (tail_rows st) masked
        ("Observation-State-Mapping for " +:+ str_of_int (learning_epoch + 1)
           +:+ "learning epoch")
        true (Z.min (model_state_dim jp_model) 3)
        ("_train_" +:+ str_of_int (learning_epoch + 1))
        (recordto a) false ]
  else [].

Definition epoch_log (a : Args) (training_data : Dataset Obj)
    (jp_model env : Obj) (masked : array1) (learning_epoch : Z)
    (ep : epoch_run) : list (event Obj) :=
  [ LearnStates jp_model 1 (batch_size a) "" (display a) (validation_ratio a)
      (ep_states ep, ep_history ep) ]
  ++ plot_log a jp_model (ep_states ep) masked learning_epoch
  ++ trials_log a training_data env (ep_states ep) 0 (ep_trials ep).

Fixpoint epochs_log (a : Args) (training_data : Dataset Obj)
    (jp_model env : Obj) (masked : array1) (learning_epoch : Z)
    (eps : list epoch_run) : list (event Obj) :=
  match eps with
  | [] => []
  | ep :: eps' =>
      epoch_log a training_data jp_model env masked learning_epoch ep
      ++ epochs_log a training_data jp_model env masked (learning_epoch + 1) eps'
  end.

(** The [20 x 25] rewards of a trial, and the first validation loss of a
    history ([0.0] stands for a missing entry, which the contract of the
    training call excludes). *)
Definition trial_slice (t : trial_run) : array2 :=
  chunks (Z.to_nat n_test_episodes) (Z.to_nat n_test_steps)
    (stats_rewards (tr_stats t)).

Definition first_loss (l : list float) : float := default zero (head l).

(** The calls that build the controller and the environment. *)
Definition setup_log (a : Args) (training_data : Dataset Obj)
    (jp_model thetarange controller env : Obj) : list (event Obj) :=
  let env_args := td_args training_data in
  [ ControllerMake (ea_controller env_args) (ea_speed env_args)
      (ea_dtheta env_args) (ea_fixed_point env_args)
      (take 2 (ea_xztrange env_args)) thetarange (ea_noise_ratio env_args)
      true controller;
    MakeRoundBotEnv (ea_world_name env_args) (ea_world_size env_args)
      (ea_texture env_args) (ea_obssize env_args)
      (if visible_train a then Some (200, 200) else None) controller
      (global_pov_of env_args) (visible_train a)
      (negb (ea_orthogonal env_args)) (ea_multiview env_args)
      (ea_focal env_args) n_test_steps true (ea_distractors env_args)
      jp_model env ].

(** A trial returned one reward per step; an epoch ran [n_qlearnings]
    such trials and its training call returned a loss for each term. *)
Definition trial_ok (t : trial_run) : Prop :=
  length (stats_rewards (tr_stats t)) = Z.to_nat (n_test_episodes * n_test_steps).

Definition epoch_ok (ep : epoch_run) : Prop :=
  length (ep_trials ep) = Z.to_nat n_qlearnings
  /\ Forall trial_ok (ep_trials ep)
  /\ val_t_loss (ep_history ep) ≠ [] /\ val_p_loss (ep_history ep) ≠ []
  /\ val_c_loss (ep_history ep) ≠ [] /\ val_r_loss (ep_history ep) ≠ [].

(** [states] after the epochs [eps], [st0] before them. *)
Definition final_states (st0 : option Obj) (eps : list epoch_run) : option Obj :=
  match last eps with
  | Some ep => Some (ep_states ep)
  | None => st0
  end.

(** The variables after the epochs [eps]. *)
Definition run_vars (eps : list epoch_run) : Vars :=
  {| states := final_states None eps;
     temporalcoherence_loss_record :=
       map (fun ep => first_loss (val_t_loss (ep_history ep))) eps;
     proportionality_loss_record :=
       map (fun ep => first_loss (val_p_loss (ep_history ep))) eps;
     causality_loss_record :=
       map (fun ep => first_loss (val_c_loss (ep_history ep))) eps;
     repeatability_loss_record :=
       map (fun ep => first_loss (val_r_loss (ep_history ep))) eps;
     test_performance :=
       map (fun ep => map trial_slice (ep_trials ep)) eps |}.

(** *** Projections of the log *)

(** Training calls: the number of epochs asked for and the history
    returned. *)
Definition learn_calls (l : list (event Obj)) : list (Z * History) :=
  omap (fun ev => match ev with
                  | LearnStates _ n _ _ _ _ r => Some (n, r.2)
                  | _ => None
                  end) l.

(** Calls of the plotting of the representation: the [plot_name]. *)
Definition plot_calls (l : list (event Obj)) : list string :=
  omap (fun ev => match ev with
                  | PlotRepresentation _ _ _ _ _ n _ _ => Some n
                  | _ => None
                  end) l.

(** Rollouts: the statistics returned. *)
Definition rollouts (l : list (event Obj)) : list Stats :=
  omap (fun ev => match ev with
                  | RunInEnv _ _ _ _ r => Some r
                  | _ => None
                  end) l.

(** Seeding calls. *)
Definition seedings (l : list (event Obj)) : list Z :=
  omap (fun ev => match ev with
                  | NpRandomSeed s => Some s
                  | _ => None
                  end) l.

(** Calls that load data, build the model or train it. *)
Definition is_work (ev : event Obj) : bool :=
  match ev with
  | LoadData _ _ | PriorsModel _ _ _ _ _ _ _ _ | LearnStates _ _ _ _ _ _ _
  | ComputeStates _ _ _ _ | ControllerMake _ _ _ _ _ _ _ _ _
  | MakeRoundBotEnv _ _ _ _ _ _ _ _ _ _ _ _ _ _ _ _
  | FittedQIteration _ _ _ | FitSk _ _ _ _ _ _ _ _ | PlugPolicy _ _ _
  | RoundBotAgent _ _ | RunInEnv _ _ _ _ _ => true
  | _ => false
  end.

(** A stretch of the log without any loading, model building, training,
    fitting or rollout. *)
Definition no_work (d : list (event Obj)) : Prop :=
  Forall (fun ev => is_work ev = false) d.

(** *** What is asked of the collaborators *)

(** Modelled from the spec: [tools.learn_states] is not part of the
    script.  The training loop appends the four validation-loss scalars
    to the history at every epoch, so a call for one epoch returns a
    history with a first entry for each term. *)
Definition training_contract : Prop :=
  forall td m bs r d vr w,
    let h := (tools_learn_states td m 1 bs r d vr w).2.2 in
    val_t_loss h ≠ [] /\ val_p_loss h ≠ [] /\
    val_c_loss h ≠ [] /\ val_r_loss h ≠ [].

(** Modelled from the spec: [RoundBotAgent.run_in_env] is not part of
    the script.  Running [n_test_episodes] episodes in the test
    environment, whose episodes last [n_test_steps] steps, yields a
    reward tensor of shape [[n_test_episodes, n_test_steps]]: one reward
    per step. *)
Definition harness_contract : Prop :=
  forall ag env w,
    length (stats_rewards (run_in_env ag env n_test_episodes None w).2)
    = Z.to_nat (n_test_episodes * n_test_steps).

(** The value handed to [np.random.seed] is one numpy accepts: the seed
    of the command line when it is used, the time the clock reads
    otherwise (until 2106). *)
Definition valid_seed (s : Z) : Prop := 0 <= s < 2 ^ 32.

Definition seed_contract (a : Args) : Prop :=
  match seed a with
  | Some s => if s =? 0 then forall w, valid_seed (time_time w).2
              else valid_seed s
  | None => forall w, valid_seed (time_time w).2
  end.

(** Modelled from the spec: [tools.load_data] is not part of the
    script.  The data set holds the observations (one at least), the
    arguments of the recording environment (with its three ranges in
    ['xztrange']), and rewards and episode flags of matching lengths, so
    that line 221 can multiply them. *)
Definition dataset_ok (td : Dataset Obj) : bool :=
  bool_decide (td_observations td ≠ [])
  && bool_decide (2 < length (ea_xztrange (td_args td)))%nat
  && is_ok (masked_rewards td).

Definition data_contract (a : Args) : Prop :=
  forall w, dataset_ok (tools_load_data (training_data a) w).2 = true.

(** The three checks of lines 66-73 on the arguments, as given on the
    command line. *)
Definition record_or_display (a : Args) : bool :=
  str_truthy (recordto a) || display a.

Definition qlearning_has_record (a : Args) : bool :=
  negb (qlearning a) || str_truthy (recordto a).

Definition ratio_in_range (a : Args) : bool :=
  negb (F64.leb (validation_ratio a) zero || F64.leb one (validation_ratio a)).

(** *** Further projections of the log and classes of calls *)

(** Files written with [savefig]. *)
Definition saved_files (l : list (event Obj)) : list string :=
  omap (fun ev => match ev with
                  | Savefig _ path => Some path
                  | _ => None
                  end) l.

(** Trial numbers printed in verbose mode. *)
Definition prints (l : list (event Obj)) : list Z :=
  omap (fun ev => match ev with
                  | PyPrint q _ _ => Some q
                  | _ => None
                  end) l.

(** Prompts shown by [input]. *)
Definition inputs (l : list (event Obj)) : list string :=
  omap (fun ev => match ev with
                  | Input prompt => Some prompt
                  | _ => None
                  end) l.

(** Test files handed to [tools.compute_states]. *)
Definition tested (l : list (event Obj)) : list string :=
  omap (fun ev => match ev with
                  | ComputeStates t _ _ _ => Some t
                  | _ => None
                  end) l.

(** A call that shows in none of [saved_files], [inputs], [rollouts]. *)
Definition quiet (ev : event Obj) : bool :=
  match ev with
  | Savefig _ _ | Input _ | RunInEnv _ _ _ _ _ => false
  | _ => true
  end.

(** A call that does not record anything: it neither creates a directory
    nor saves a figure, and if it takes a recording destination the
    destination is the empty string. *)
Definition no_record (ev : event Obj) : bool :=
  match ev with
  | OsMakedirs _ _ | Savefig _ _ => false
  | LearnStates _ _ _ r _ _ _ => negb (str_truthy r)
  | ComputeStates _ _ r _ => negb (str_truthy r)
  | PlotRepresentation _ _ _ _ _ _ r _ => negb (str_truthy r)
  | _ => true
  end.

(** A call of the reinforcement-learning part: controller, environment,
    fitted Q iteration, policy, agent, rollout, and the plots that go
    with them. *)
Definition is_rl (ev : event Obj) : bool :=
  match ev with
  | ControllerMake _ _ _ _ _ _ _ _ _
  | MakeRoundBotEnv _ _ _ _ _ _ _ _ _ _ _ _ _ _ _ _
  | PlotRepresentation _ _ _ _ _ _ _ _
  | FittedQIteration _ _ _ | FitSk _ _ _ _ _ _ _ _ | PlugPolicy _ _ _
  | RoundBotAgent _ _ | RunInEnv _ _ _ _ _ | PyPrint _ _ _
  | PltScatter _ _ => true
  | _ => false
  end.

(** The state after lines 60-64: the destination, if any, has been
    created. *)
Definition after_makedirs (a : Args) (s : state) : state :=
  if str_truthy (recordto a) then
    {| world := effect (OsMakedirs (normalize_recordto (recordto a)) true)
                  (world s);
       log := log s ++ [OsMakedirs (normalize_recordto (recordto a)) true] |}
  else s.

(** Every call a computation logs satisfies [P], however it ends; the
    log only grows. *)
Definition emits {A} (P : event Obj -> Prop) (m : M A) : Prop :=
  forall (st st' : state) (r : outcome A),
    m st = (st', r) ->
    exists d : list (event Obj), log st' = log st ++ d /\ Forall P d.

(** A computation started in [st] ends normally, and the calls [d] it
    logs and the value [x] it returns satisfy [Q]. *)
Definition ok_with {A} (m : M A) (st : state)
    (Q : list (event Obj) -> A -> Prop) : Prop :=
  exists (st' : state) (d : list (event Obj)) (x : A),
    m st = (st', Ok x) /\ log st' = log st ++ d /\ Q d x.

(** A computation started in [st] ends with an exception [e], after the
    calls [d], and [d] and [e] satisfy [Q]. *)
Definition raises_with {A} (m : M A) (st : state)
    (Q : list (event Obj) -> exn -> Prop) : Prop :=
  exists (st' : state) (d : list (event Obj)) (e : exn),
    m st = (st', Raise e) /\ log st' = log st ++ d /\ Q d e.

(** A call that opens a window or waits for the user: [plt.show],
    [input], and a collaborator told to display. *)
Definition interactive (ev : event Obj) : bool :=
  match ev with
  | PltShow | Input _ => true
  | LearnStates _ _ _ _ d _ _ => d
  | ComputeStates _ _ _ d => d
  | PlotRepresentation _ _ _ _ _ _ _ d => d
  | _ => false
  end.





End Script.

(** ** A small instance of the collaborators

    Objects are numbers; the world is a clock (in seconds) that every
    constructor call advances and uses as the identity of the object it
    creates.  Training returns one loss per term, a rollout returns
    [20 * 25] rewards. *)

Module Toy.

Definition env_args : EnvArgs Z :=
  {| ea_controller := 0; ea_speed := 0; ea_dtheta := 0;
     ea_fixed_point := 0; ea_xztrange := [1; 2; 3];
     ea_noise_ratio := 0; ea_auto_global_pov := false;
     ea_global_pov := PyBool false; ea_world_name := 0;
     ea_world_size := 0; ea_texture := 0; ea_obssize := 0;
     ea_orthogonal := false; ea_multiview := 0; ea_focal := 0;
     ea_distractors := 0 |}.

Definition dataset : Dataset Z :=
  {| td_observations := [7; 7; 7];
     td_args := env_args;
     td_actions_int := 8;
     td_num_actions := 4;
     td_rewards := [zero; one; zero];
     td_episode_starts := [true; false; false] |}.

Definition fresh (w : Z) : Z * Z := (w + 1, w).

Definition history : History :=
  {| val_t_loss := [one]; val_p_loss := [one];
     val_c_loss := [one]; val_r_loss := [one] |}.

Definition stats : Stats :=
  {| stats_rewards := replicate 500%nat one;
     stats_reward_ep := replicate 20%nat one |}.

Definition collaborators : Collaborators :=
  {| Obj := Z;
     World := Z;
     effect := fun _ w => w;
     time_time := fun w => (w, w);
     tools_load_data := fun _ w => (w, dataset);
     jonschkowski_priors_Priors_model := fun _ _ _ _ _ _ _ => fresh;
     tools_learn_states := fun _ _ _ _ _ _ _ w => (w + 1, (w, history));
     round_bot_controller_make := fun _ _ _ _ _ _ _ _ => fresh;
     run_round_bot_make_round_bot_env :=
       fun _ _ _ _ _ _ _ _ _ _ _ _ _ _ _ => fresh;
     fqi_Fitted_QIteration := fun _ _ => fresh;
     fit_sk := fun _ _ _ _ _ _ _ => fresh;
     policy_Plug_policy := fun _ _ => fresh;
     agent_RoundBotAgent := fun _ => fresh;
     run_in_env := fun _ _ _ _ w => (w + 1, stats);
     PCA_fit_transform := fun _ _ w => (w, [one]);
     shape := fun _ => [3; 2];
     tail_rows := fun o => o;
     model_state_dim := fun _ => 2;
     action_space_int := fun o => o |}.

(** [0.1] and [5.0] in binary64. *)
Definition f0_1 : float := S754_finite false 7205759403792794 (-56).
Definition f5 : float := S754_finite false 5629499534213120 (-50).

(** Command lines [main.py -trd data.npz -ne 2 ...] that differ in the
    mode, the destination, the display, the validation ratio, the seed and
    the weights. *)
Definition args_of (ql : bool) (r : string) (dis : bool) (vr : float)
    (sd : option Z) (ws : list float) : Args :=
  {| training_data := "data.npz"; test_data := ""; qlearning := ql;
     recordto := r; num_epochs := 2; learning_rate := f0_1;
     l1_reg := f0_1; state_dim := 2; validation_ratio := vr;
     batch_size := 256; seed := sd; tanh_units := None;
     weights := ws; display := dis;
     visible_train := false; verbose := false |}.

(** [main.py -trd data.npz -ql -r out -ne 2 -rs 1 -w 1 5 1 5]. *)
Definition args : Args :=
  args_of true "out" false f0_1 (Some 1) [one; f5; one; f5].

Definition start (clock : Z) : @state collaborators :=
  @Build_state collaborators clock [].

(** The data set and a model, as objects of this instance. *)
Definition td : Dataset (@Obj collaborators) := dataset.
Definition jp_model : @Obj collaborators := 0.

End Toy.

(** ** Variants of the small instance

    The same collaborators, with the data set, the training history and
    the rollout statistics given. *)

Module ToyWith.

Definition collaborators (d : Dataset Z) (h : History) (st : Stats)
    : Collaborators :=
  {| Obj := Z;
     World := Z;
     effect := fun _ w => w;
     time_time := fun w => (w, w);
     tools_load_data := fun _ w => (w, d);
     jonschkowski_priors_Priors_model := fun _ _ _ _ _ _ _ => Toy.fresh;
     tools_learn_states := fun _ _ _ _ _ _ _ w => (w + 1, (w, h));
     round_bot_controller_make := fun _ _ _ _ _ _ _ _ => Toy.fresh;
     run_round_bot_make_round_bot_env :=
       fun _ _ _ _ _ _ _ _ _ _ _ _ _ _ _ => Toy.fresh;
     fqi_Fitted_QIteration := fun _ _ => Toy.fresh;
     fit_sk := fun _ _ _ _ _ _ _ => Toy.fresh;
     policy_Plug_policy := fun _ _ => Toy.fresh;
     agent_RoundBotAgent := fun _ => Toy.fresh;
     run_in_env := fun _ _ _ _ w => (w + 1, st);
     PCA_fit_transform := fun _ _ w => (w, [one]);
     shape := fun _ => [3; 2];
     tail_rows := fun o => o;
     model_state_dim := fun _ => 2;
     action_space_int := fun o => o |}.

(** A rollout that stopped after three steps. *)
Definition short_stats : Stats :=
  {| stats_rewards := [one; one; one]; stats_reward_ep := [one] |}.

(** A history without validation losses. *)
Definition empty_history : History :=
  {| val_t_loss := []; val_p_loss := []; val_c_loss := []; val_r_loss := [] |}.

(** A data file without observations. *)
Definition empty_dataset : Dataset Z :=
  {| td_observations := [];
     td_args := Toy.env_args;
     td_actions_int := 8;
     td_num_actions := 4;
     td_rewards := [];
     td_episode_starts := [] |}.

Definition short_rollout : Collaborators :=
  collaborators Toy.dataset Toy.history short_stats.
Definition no_losses : Collaborators :=
  collaborators Toy.dataset empty_history Toy.stats.
Definition no_data : Collaborators :=
  collaborators empty_dataset Toy.history Toy.stats.

(** Command lines [main.py -trd data.npz -ne n ...]. *)
Definition args_n (ql : bool) (r t : string) (dis : bool) (n : Z)
    (sd : option Z) : Args :=
  {| training_data := "data.npz"; test_data := t; qlearning := ql;
     recordto := r; num_epochs := n; learning_rate := Toy.f0_1;
     l1_reg := Toy.f0_1; state_dim := 2; validation_ratio := Toy.f0_1;
     batch_size := 256; seed := sd; tanh_units := None;
     weights := [one; Toy.f5; one; Toy.f5]; display := dis;
     visible_train := false; verbose := true |}.

End ToyWith.

(** * Examples *)

Example normalize_recordto_examples :
  normalize_recordto "out" = "out/"
  /\ normalize_recordto "out/" = "out/"
  /\ normalize_recordto "" = "".
Proof. by repeat split. Qed.

(** Of twelve epochs, the first, the fifth and the tenth are plotted. *)
Example plot_epochs_of_twelve :
  List.filter plot_epoch (range 12) = [0; 4; 9].
Proof. reflexivity. Qed.

Example np_index_examples :
  np_index 3 2 = Ok 2%nat /\ np_index 3 (-1) = Ok 2%nat
  /\ is_ok (np_index 3 3) = false /\ is_ok (np_index 3 (-4)) = false.
Proof. by repeat split. Qed.

Example np_zip_examples :
  np_zip F64.add [one; one] [zero; zero] = Ok [one; one]
  /\ np_zip F64.add [one] [zero; zero; zero] = Ok [one; one; one]
  /\ is_ok (np_zip F64.add [one; one] [zero; zero; zero]) = false.
Proof. by repeat split. Qed.

Example np_reshape2_examples :
  np_reshape2 [zero; one; zero; one; zero; one] 2 3
  = Ok [[zero; one; zero]; [one; zero; one]]
  /\ is_ok (np_reshape2 [zero; one; zero] 2 3) = false.
Proof. by repeat split. Qed.

(** ['global_pov'] is [False] in the small instance: no point of view. *)
Example global_pov_of_toy :
  @global_pov_of Toy.collaborators Toy.env_args = PovNone.
Proof. reflexivity. Qed.

(** The run of the small instance: it ends normally, seeds the generator
    with the seed given, trains twice for one epoch and plots the
    representation of the first epoch. *)
Example toy_run :
  let r := main (C := Toy.collaborators) Toy.args (Toy.start 1700000000) in
  r.2 = Ok tt
  /\ seedings (log r.1) = [1]
  /\ map fst (learn_calls (log r.1)) = [1; 1]
  /\ plot_calls (log r.1) = ["_train_1"]
  /\ length (rollouts (log r.1)) = 20%nat.
Proof. by vm_compute. Qed.

(** A NaN is neither [<= 0.0] nor [>= 1.0]: it goes through the check of
    line 72. *)
Example nan_ratio_in_range :
  ratio_in_range
    (Toy.args_of true "out" false S754_nan (Some 1) [one; Toy.f5; one; Toy.f5])
  = true.
Proof. reflexivity. Qed.

(** A quotient by a weight that is not zero can still overflow:
    [1e300 / 1e-300] is [inf]. *)
Example unweighting_overflow :
  F64.div (S754_finite false 6724873095247260 944)
          (S754_finite false 6032057205060441 (-1049))
  = S754_infinity false.
Proof. by vm_compute. Qed.

(** * Properties *)

Section Proofs.

Context `{C : Collaborators}.

(** ** Arrays and indices *)

Lemma np_index_nat (len k : nat) :
  (k < len)%nat -> np_index len (Z.of_nat k) = Ok k.
Proof.
  intros Hk. unfold np_index.
  destruct (Z.ltb_spec (Z.of_nat k) 0) as [Hn|_]; [lia|].
  destruct (Z.leb_spec 0 (Z.of_nat k)) as [_|Hn]; [|lia].
  destruct (Z.ltb_spec (Z.of_nat k) (Z.of_nat len)) as [_|Hn]; [|lia].
  simpl. by rewrite Nat2Z.id.
Qed.

Lemma list_index_first (l : list float) :
  l ≠ [] -> list_index l 0 = Ok (first_loss l).
Proof. by destruct l. Qed.

Lemma np_set1_middle (done rest : array1) (x v : float) (k : nat) :
  length done = k ->
  np_set1 (done ++ x :: rest) (Z.of_nat k) v = Ok (done ++ v :: rest).
Proof.
  intros <-. unfold np_set1. rewrite np_index_nat.
  - f_equal. rewrite insert_app_r_alt by lia. by rewrite Nat.sub_diag.
  - rewrite length_app. simpl. lia.
Qed.

Lemma np_set_slice_middle (P Q : array4) (done tail : list array2)
    (z m : array2) :
  np_set_slice (P ++ (done ++ z :: tail) :: Q)
    (Z.of_nat (length P)) (Z.of_nat (length done)) m
  = Ok (P ++ (done ++ m :: tail) :: Q).
Proof.
  unfold np_set_slice. rewrite np_index_nat.
  2: { rewrite length_app. simpl. lia. }
  rewrite list_lookup_middle by done. simpl.
  rewrite np_index_nat.
  2: { rewrite length_app. simpl. lia. }
  f_equal.
  rewrite insert_app_r_alt by lia. rewrite Nat.sub_diag. simpl.
  do 2 f_equal.
  rewrite insert_app_r_alt by lia. by rewrite Nat.sub_diag.
Qed.

Lemma np_reshape2_rollout (l : list float) :
  length l = Z.to_nat (n_test_episodes * n_test_steps) ->
  np_reshape2 l n_test_episodes n_test_steps
  = Ok (chunks (Z.to_nat n_test_episodes) (Z.to_nat n_test_steps) l).
Proof.
  intros Hl. unfold np_reshape2. rewrite Hl. reflexivity.
Qed.

(** [chunks] yields the announced shape when the buffer is large enough. *)
Lemma chunks_shape (rows cols : nat) (l : list float) :
  length l = (rows * cols)%nat -> shape2 (chunks rows cols l) rows cols.
Proof.
  revert l. induction rows as [|r IH]; intros l Hl; simpl.
  - split; [done|constructor].
  - destruct (IH (drop cols l)) as [Hlen Hall].
    { rewrite length_drop. lia. }
    split; [simpl; by rewrite Hlen|].
    constructor; [|done]. rewrite length_take. lia.
Qed.

(** ** One trial *)

Lemma qlearning_trial_run (a : Args) (td : Dataset Obj) (env sts : Obj)
    (P Q : array4) (done tail : list array2) (z : array2) (s : state) :
  harness_contract ->
  exists (t : trial_run) (s' : state),
    qlearning_trial a td env sts (Z.of_nat (length P))
      (Z.of_nat (length done)) (P ++ (done ++ z :: tail) :: Q) s
    = (s', Ok (P ++ (done ++ trial_slice t :: tail) :: Q))
    /\ log s' = log s ++ trial_log a td env sts (Z.of_nat (length done)) t
    /\ trial_ok t.
Proof.
  intros Hh. unfold qlearning_trial, mbind, M_bind, call. simpl.
  destruct (fqi_Fitted_QIteration _ _ _) as [w1 qit].
  destruct (fit_sk _ _ _ _ _ _ _ _) as [w2 pol].
  destruct (policy_Plug_policy _ _ _) as [w3 plug].
  destruct (agent_RoundBotAgent _ _) as [w4 ag].
  pose proof (Hh ag env w4) as Hlen.
  destruct (run_in_env _ _ _ _ _) as [w5 stats]. simpl in Hlen.
  rewrite np_reshape2_rollout by done.
  rewrite np_set_slice_middle.
  exists {| tr_qit := qit; tr_policy := pol; tr_plugged := plug;
            tr_agent := ag; tr_stats := stats |}.
  unfold trial_log, trial_slice, when, perform. simpl.
  destruct (verbose a); simpl; eexists; (split; [reflexivity|]); simpl;
    (split; [|done]); by rewrite <- ?app_assoc.
Qed.

(** ** The ten trials of an epoch *)

Lemma trials_run (a : Args) (td : Dataset Obj) (env sts : Obj) (P Q : array4) :
  harness_contract ->
  forall (n : nat) (done tail : list array2) (s : state),
    length tail = n ->
    exists (ts : list trial_run) (s' : state),
      length ts = n
      /\ for_each (map Z.of_nat (seq (length done) n))
           (qlearning_trial a td env sts (Z.of_nat (length P)))
           (P ++ (done ++ tail) :: Q) s
         = (s', Ok (P ++ (done ++ map trial_slice ts) :: Q))
      /\ log s' = log s ++ trials_log a td env sts (Z.of_nat (length done)) ts
      /\ Forall trial_ok ts.
Proof.
  intros Hh n. induction n as [|n IH]; intros done tail s Htail.
  - destruct tail; [|done]. exists [], s. simpl.
    rewrite !app_nil_r. by repeat split.
  - destruct tail as [|z tail]; [done|]. simpl in Htail.
    destruct (qlearning_trial_run a td env sts P Q done tail z s Hh)
      as (t & s1 & Hrun & Hlog & Hok).
    destruct (IH (done ++ [trial_slice t]) tail s1 ltac:(lia))
      as (ts & s2 & Hlen & Hrun2 & Hlog2 & Hok2).
    exists (t :: ts), s2. split; [simpl; lia|].
    rewrite length_app in Hrun2, Hlog2. simpl in Hrun2, Hlog2.
    rewrite Nat.add_1_r in Hrun2, Hlog2.
    rewrite <- !app_assoc in Hrun2. simpl in Hrun2.
    split; [|split].
    + simpl. unfold mbind, M_bind at 1. rewrite Hrun. exact Hrun2.
    + rewrite Hlog2, Hlog. simpl. rewrite <- app_assoc.
      by rewrite Nat2Z.inj_succ, <- Z.add_1_r.
    + by constructor.
Qed.

(** ** One epoch *)

Lemma range_seq (n : Z) : range n = map Z.of_nat (seq 0 (Z.to_nat n)).
Proof. reflexivity. Qed.

Lemma learning_iteration_run (a : Args) (td : Dataset Obj) (jp_model env : Obj)
    (masked : array1) (st0 : option Obj) (dt dp dc dr rt rp rc rr : array1)
    (xt xp xc xr : float) (P Q : array4) (row : list array2) (s : state) :
  training_contract -> harness_contract ->
  masked_rewards td = Ok masked ->
  length dt = length P -> length dp = length P ->
  length dc = length P -> length dr = length P ->
  length row = Z.to_nat n_qlearnings ->
  exists (ep : epoch_run) (s' : state),
    epoch_ok ep
    /\ learning_iteration a td jp_model env (Z.of_nat (length P))
         {| states := st0;
            temporalcoherence_loss_record := dt ++ xt :: rt;
            proportionality_loss_record := dp ++ xp :: rp;
            causality_loss_record := dc ++ xc :: rc;
            repeatability_loss_record := dr ++ xr :: rr;
            test_performance := P ++ row :: Q |} s
       = (s', Ok {| states := Some (ep_states ep);
                    temporalcoherence_loss_record :=
                      dt ++ first_loss (val_t_loss (ep_history ep)) :: rt;
                    proportionality_loss_record :=
                      dp ++ first_loss (val_p_loss (ep_history ep)) :: rp;
                    causality_loss_record :=
                      dc ++ first_loss (val_c_loss (ep_history ep)) :: rc;
                    repeatability_loss_record :=
                      dr ++ first_loss (val_r_loss (ep_history ep)) :: rr;
                    test_performance :=
                      P ++ map trial_slice (ep_trials ep) :: Q |})
    /\ log s' = log s
                ++ epoch_log a td jp_model env masked (Z.of_nat (length P)) ep.
Proof.
  intros Ht Hh Hm Hdt Hdp Hdc Hdr Hrow.
  pose proof (Ht td jp_model (batch_size a) "" (display a)
                (validation_ratio a) (world s)) as (Hlt & Hlp & Hlc & Hlr).
  unfold learning_iteration, mbind, M_bind at 1, call at 1.
  destruct (tools_learn_states _ _ _ _ _ _ _ _) as [w1 [sts h]].
  simpl in Hlt, Hlp, Hlc, Hlr.
  set (s1 := {| world := w1;
                log := log s ++ [LearnStates jp_model 1 (batch_size a) ""
                                   (display a) (validation_ratio a) (sts, h)] |}).
  assert (exists s2, when (plot_epoch (Z.of_nat (length P)))
            (plot_representation a td jp_model sts (Z.of_nat (length P))) s1
          = (s2, Ok tt)
          /\ log s2 = log s1 ++ plot_log a jp_model sts masked (Z.of_nat (length P)))
    as (s2 & Hplot & Hlog2).
  { unfold when, plot_log, plot_representation, mbind, M_bind, lift, perform.
    rewrite Hm. destruct (plot_epoch _); simpl.
    - eexists. split; reflexivity.
    - exists s1. by rewrite app_nil_r. }
  destruct (trials_run a td env sts P Q Hh (Z.to_nat n_qlearnings) [] row s2 Hrow)
    as (ts & s3 & Hlen & Hrun & Hlog3 & Hok).
  exists {| ep_states := sts; ep_history := h; ep_trials := ts |}, s3.
  split; [by repeat split|].
  unfold M_bind, lift.
  cbn [temporalcoherence_loss_record proportionality_loss_record
       causality_loss_record repeatability_loss_record test_performance
       ep_states ep_history ep_trials].
  rewrite !list_index_first by done.
  rewrite !np_set1_middle by done.
  rewrite Hplot.
  change (range n_qlearnings)
    with (map Z.of_nat (seq (length (@nil array2)) (Z.to_nat n_qlearnings))).
  change (P ++ row :: Q) with (P ++ ([] ++ row) :: Q).
  rewrite Hrun.
  split; [reflexivity|].
  rewrite Hlog3, Hlog2. unfold epoch_log. subst s1.
  cbn [log ep_states ep_history ep_trials length Z.of_nat].
  by rewrite <- !app_assoc.
Qed.

(** ** The outer loop *)

Lemma final_states_cons (st0 : option Obj) (ep : epoch_run)
    (eps : list epoch_run) :
  final_states (Some (ep_states ep)) eps = final_states st0 (ep :: eps).
Proof.
  unfold final_states. rewrite last_cons. by destruct (last eps).
Qed.

Lemma epochs_run (a : Args) (td : Dataset Obj) (jp_model env : Obj)
    (masked : array1) :
  training_contract -> harness_contract ->
  masked_rewards td = Ok masked ->
  forall (n : nat) (st0 : option Obj) (dt dp dc dr rt rp rc rr : array1)
         (P R : array4) (s : state),
    length dt = length P -> length dp = length P ->
    length dc = length P -> length dr = length P ->
    length rt = n -> length rp = n -> length rc = n -> length rr = n ->
    length R = n ->
    Forall (fun row => length row = Z.to_nat n_qlearnings) R ->
    exists (eps : list epoch_run) (s' : state),
      length eps = n /\ Forall epoch_ok eps
      /\ for_each (map Z.of_nat (seq (length P) n))
           (learning_iteration a td jp_model env)
           (Build_Vars st0 (dt ++ rt) (dp ++ rp) (dc ++ rc) (dr ++ rr) (P ++ R)) s
         = (s', Ok (Build_Vars (final_states st0 eps)
                      (dt ++ map (fun ep => first_loss (val_t_loss (ep_history ep))) eps)
                      (dp ++ map (fun ep => first_loss (val_p_loss (ep_history ep))) eps)
                      (dc ++ map (fun ep => first_loss (val_c_loss (ep_history ep))) eps)
                      (dr ++ map (fun ep => first_loss (val_r_loss (ep_history ep))) eps)
                      (P ++ map (fun ep => map trial_slice (ep_trials ep)) eps)))
      /\ log s' = log s
                  ++ epochs_log a td jp_model env masked (Z.of_nat (length P)) eps.
Proof.
  intros Ht Hh Hm n.
  induction n as [|n IH];
    intros st0 dt dp dc dr rt rp rc rr P R s Hdt Hdp Hdc Hdr Hrt Hrp Hrc Hrr HR Hrows.
  - destruct rt, rp, rc, rr, R; try done.
    exists [], s. simpl. rewrite !app_nil_r. by repeat split.
  - destruct rt as [|xt rt], rp as [|xp rp], rc as [|xc rc], rr as [|xr rr],
      R as [|row R]; try done.
    simpl in Hrt, Hrp, Hrc, Hrr, HR.
    apply Forall_cons in Hrows as [Hrow Hrows].
    destruct (learning_iteration_run a td jp_model env masked st0
                dt dp dc dr rt rp rc rr xt xp xc xr P R row s
                Ht Hh Hm Hdt Hdp Hdc Hdr Hrow)
      as (ep & s1 & Hep & Hrun & Hlog).
    destruct (IH (Some (ep_states ep))
                (dt ++ [first_loss (val_t_loss (ep_history ep))])
                (dp ++ [first_loss (val_p_loss (ep_history ep))])
                (dc ++ [first_loss (val_c_loss (ep_history ep))])
                (dr ++ [first_loss (val_r_loss (ep_history ep))])
                rt rp rc rr
                (P ++ [map trial_slice (ep_trials ep)]) R s1)
      as (eps & s2 & Hlen & Hok & Hrun2 & Hlog2);
      try (rewrite !length_app; simpl; lia); try lia; try done.
    exists (ep :: eps), s2.
    rewrite length_app in Hrun2, Hlog2. cbn [length] in Hrun2, Hlog2.
    rewrite Nat.add_1_r in Hrun2, Hlog2.
    rewrite <- !app_assoc in Hrun2. cbn [app] in Hrun2.
    rewrite final_states_cons with (st0 := st0) in Hrun2.
    split; [simpl; lia|]. split; [by constructor|]. split.
    + cbn [seq map for_each]. unfold mbind, M_bind at 1.
      rewrite Hrun. exact Hrun2.
    + rewrite Hlog2, Hlog. cbn [epochs_log]. rewrite <- app_assoc.
      by rewrite Nat2Z.inj_succ, <- Z.add_1_r.
Qed.

Lemma list_index_nat {A} (l : list A) (i : Z) (x : A) :
  0 <= i -> l !! Z.to_nat i = Some x -> list_index l i = Ok x.
Proof.
  intros Hi Hk. pose proof (lookup_lt_Some _ _ _ Hk) as Hlt.
  unfold list_index.
  destruct (Z.ltb_spec i 0) as [Hn|_]; [lia|].
  destruct (Z.leb_spec 0 i) as [_|Hn]; [|lia].
  destruct (Z.ltb_spec i (Z.of_nat (length l))) as [_|Hn]; [|lia].
  simpl. by rewrite Hk.
Qed.

(** ** The whole Q-learning experiment *)

Lemma qlearning_experiment_run (a : Args) (td : Dataset Obj) (jp_model : Obj)
    (masked : array1) (thetarange : Obj) (s : state) :
  training_contract -> harness_contract ->
  masked_rewards td = Ok masked ->
  ea_xztrange (td_args td) !! 2%nat = Some thetarange ->
  0 <= num_epochs a ->
  exists (controller env : Obj) (eps : list epoch_run) (s' : state),
    length eps = Z.to_nat (num_epochs a) /\ Forall epoch_ok eps
    /\ qlearning_experiment a td jp_model s = (s', Ok (run_vars eps))
    /\ log s' = log s
                ++ setup_log a td jp_model thetarange controller env
                ++ epochs_log a td jp_model env masked 0 eps.
Proof.
  intros Ht Hh Hm Hx HN.
  unfold qlearning_experiment, np_zeros4, np_zeros1, make_env.
  destruct (Z.ltb_spec (num_epochs a) 0) as [Hn|_]; [lia|].
  cbn [orb Z.ltb n_qlearnings n_test_episodes n_test_steps Z.compare].
  rewrite (list_index_nat _ 2 thetarange) by (done || lia).
  unfold mbind, M_bind, lift, call.
  destruct (round_bot_controller_make _ _ _ _ _ _ _ _ _) as [w1 controller].
  cbn [world log].
  destruct (run_round_bot_make_round_bot_env _ _ _ _ _ _ _ _ _ _ _ _ _ _ _ _)
    as [w2 env].
  set (s2 := Build_state w2 _).
  destruct (epochs_run a td jp_model env masked Ht Hh Hm
              (Z.to_nat (num_epochs a)) None [] [] [] []
              (replicate (Z.to_nat (num_epochs a)) zero)
              (replicate (Z.to_nat (num_epochs a)) zero)
              (replicate (Z.to_nat (num_epochs a)) zero)
              (replicate (Z.to_nat (num_epochs a)) zero)
              []
              (replicate (Z.to_nat (num_epochs a))
                 (replicate (Z.to_nat 10)
                    (replicate (Z.to_nat 20) (replicate (Z.to_nat 25) zero))))
              s2)
    as (eps & s3 & Hlen & Hok & Hrun & Hlog);
    try done; try apply length_replicate.
  { apply Forall_replicate. apply length_replicate. }
  exists controller, env, eps, s3.
  split; [done|]. split; [done|]. split.
  - unfold experiment_loop. rewrite range_seq. exact Hrun.
  - rewrite Hlog. subst s2. unfold setup_log. cbn [log length Z.of_nat].
    by rewrite <- !app_assoc.
Qed.
(** ** Projections of the log of the experiment *)

Lemma learn_calls_app (l1 l2 : list (event Obj)) :
  learn_calls (l1 ++ l2) = learn_calls l1 ++ learn_calls l2.
Proof. apply omap_app. Qed.

Lemma rollouts_app (l1 l2 : list (event Obj)) :
  rollouts (l1 ++ l2) = rollouts l1 ++ rollouts l2.
Proof. apply omap_app. Qed.

Lemma plot_calls_app (l1 l2 : list (event Obj)) :
  plot_calls (l1 ++ l2) = plot_calls l1 ++ plot_calls l2.
Proof. apply omap_app. Qed.

Lemma learn_calls_trials (a : Args) (td : Dataset Obj) (env sts : Obj) (q : Z)
    (ts : list trial_run) :
  learn_calls (trials_log a td env sts q ts) = [].
Proof.
  revert q. induction ts as [|t ts IH]; intros q; [done|].
  cbn [trials_log]. rewrite learn_calls_app, IH.
  unfold trial_log. by destruct (verbose a).
Qed.

Lemma learn_calls_epochs (a : Args) (td : Dataset Obj) (jp_model env : Obj)
    (masked : array1) (e : Z) (eps : list epoch_run) :
  learn_calls (epochs_log a td jp_model env masked e eps)
  = map (fun ep => (1, ep_history ep)) eps.
Proof.
  revert e. induction eps as [|ep eps IH]; intros e; [done|].
  cbn [epochs_log map]. rewrite learn_calls_app, IH.
  unfold epoch_log. rewrite !learn_calls_app, learn_calls_trials.
  unfold plot_log. by destruct (plot_epoch e).
Qed.

Lemma rollouts_trials (a : Args) (td : Dataset Obj) (env sts : Obj) (q : Z)
    (ts : list trial_run) :
  rollouts (trials_log a td env sts q ts) = map tr_stats ts.
Proof.
  revert q. induction ts as [|t ts IH]; intros q; [done|].
  cbn [trials_log map]. rewrite rollouts_app, IH.
  unfold trial_log. by destruct (verbose a).
Qed.

Lemma rollouts_epochs (a : Args) (td : Dataset Obj) (jp_model env : Obj)
    (masked : array1) (e : Z) (eps : list epoch_run) :
  rollouts (epochs_log a td jp_model env masked e eps)
  = flat_map (fun ep => map tr_stats (ep_trials ep)) eps.
Proof.
  revert e. induction eps as [|ep eps IH]; intros e; [done|].
  cbn [epochs_log flat_map]. rewrite rollouts_app, IH.
  unfold epoch_log. rewrite !rollouts_app, rollouts_trials.
  unfold plot_log. by destruct (plot_epoch e).
Qed.

Lemma plot_calls_trials (a : Args) (td : Dataset Obj) (env sts : Obj) (q : Z)
    (ts : list trial_run) :
  plot_calls (trials_log a td env sts q ts) = [].
Proof.
  revert q. induction ts as [|t ts IH]; intros q; [done|].
  cbn [trials_log]. rewrite plot_calls_app, IH.
  unfold trial_log. by destruct (verbose a).
Qed.

Lemma plot_calls_epochs (a : Args) (td : Dataset Obj) (jp_model env : Obj)
    (masked : array1) (k : nat) (eps : list epoch_run) :
  plot_calls (epochs_log a td jp_model env masked (Z.of_nat k) eps)
  = map (fun e => "_train_" +:+ str_of_int (e + 1))
      (List.filter plot_epoch (map Z.of_nat (seq k (length eps)))).
Proof.
  revert k. induction eps as [|ep eps IH]; intros k; [done|].
  cbn [epochs_log length seq map List.filter].
  rewrite plot_calls_app.
  replace (Z.of_nat k + 1) with (Z.of_nat (S k)) by lia. rewrite IH.
  unfold epoch_log. rewrite !plot_calls_app, plot_calls_trials.
  unfold plot_log. by destruct (plot_epoch (Z.of_nat k)).
Qed.

(** Lookup in a concatenation of blocks of the same length. *)
Lemma lookup_flat_map_uniform {A B} (f : A -> list B) (n : nat) (l : list A)
    (e q : nat) :
  Forall (fun x => length (f x) = n) l -> (q < n)%nat ->
  flat_map f l !! (e * n + q)%nat = (x ← l !! e; f x !! q).
Proof.
  intros Hl Hq. revert e. induction Hl as [|x l Hx Hl IH]; intros e.
  - by destruct e.
  - destruct e as [|e]; cbn [flat_map].
    + simpl. rewrite lookup_app_l by lia. done.
    + rewrite lookup_app_r by lia.
      replace (S e * n + q - length (f x))%nat with (e * n + q)%nat by lia.
      apply IH.
Qed.

Lemma length_flat_map_uniform {A B} (f : A -> list B) (n : nat) (l : list A) :
  Forall (fun x => length (f x) = n) l ->
  length (flat_map f l) = (length l * n)%nat.
Proof.
  induction 1 as [|x l Hx Hl IH]; [done|].
  cbn [flat_map length]. rewrite length_app, IH. lia.
Qed.

Lemma chunks_lookup (rows cols : nat) (l : list float) (i j : nat) :
  (i < rows)%nat -> (j < cols)%nat ->
  (row ← chunks rows cols l !! i; row !! j) = l !! (i * cols + j)%nat.
Proof.
  revert l i. induction rows as [|r IH]; intros l i Hi Hj; [lia|].
  destruct i as [|i]; simpl.
  - by rewrite lookup_take_lt.
  - rewrite IH by lia. rewrite lookup_drop. f_equal. lia.
Qed.

Lemma dataset_ok_inv (td : Dataset Obj) :
  dataset_ok td = true ->
  td_observations td ≠ []
  /\ (exists thetarange, ea_xztrange (td_args td) !! 2%nat = Some thetarange)
  /\ (exists masked, masked_rewards td = Ok masked).
Proof.
  unfold dataset_ok. rewrite !andb_true_iff, !bool_decide_eq_true.
  intros [[Hobs Hx] Hm]. split; [done|]. split.
  - by apply lookup_lt_is_Some_2.
  - destruct (masked_rewards td); [by eexists|done].
Qed.

(** ** The claims about the Q-learning experiment *)

(** C1. In Q-learning mode the script allocates a performance tensor of
    shape [[num_epochs, 10, 20, 25]], and when the loop is over the tensor
    still has that shape and every cell [[e, q, i, j]] holds the reward of
    step [j] of episode [i] returned by the rollout of trial [q] of epoch
    [e] (the rollout number [e * 10 + q] of the run): every trial of every
    epoch wrote its complete [20 x 25] slice. *)
Theorem performance_tensor_populated (a : Args) (td : Dataset Obj)
    (jp_model : Obj) (s : state) :
  training_contract -> harness_contract ->
  dataset_ok td = true ->
  0 <= num_epochs a ->
  (exists t0,
      np_zeros4 (num_epochs a) n_qlearnings n_test_episodes n_test_steps = Ok t0
      /\ shape4 t0 (Z.to_nat (num_epochs a)) 10 20 25)
  /\ exists (v : Vars) (s' : state) (d : list (event Obj)),
      qlearning_experiment a td jp_model s = (s', Ok v)
      /\ log s' = log s ++ d
      /\ shape4 (test_performance v) (Z.to_nat (num_epochs a)) 10 20 25
      /\ length (rollouts d) = (Z.to_nat (num_epochs a) * 10)%nat
      /\ forall e q i j : nat,
           (e < Z.to_nat (num_epochs a))%nat -> (q < 10)%nat ->
           (i < 20)%nat -> (j < 25)%nat ->
           exists (stats : Stats) (r : float),
             rollouts d !! (e * 10 + q)%nat = Some stats
             /\ stats_rewards stats !! (i * 25 + j)%nat = Some r
             /\ cell4 (test_performance v) e q i j = Some r.
Proof.
  intros Ht Hh Hd HN.
  destruct (dataset_ok_inv td Hd) as (_ & [thetarange Hx] & [masked Hm]).
  split.
  { unfold np_zeros4.
    destruct (Z.ltb_spec (num_epochs a) 0) as [Hn|_]; [lia|].
    eexists. split; [reflexivity|]. split; [apply length_replicate|].
    apply Forall_replicate. split; [apply length_replicate|].
    apply Forall_replicate. split; [apply length_replicate|].
    apply Forall_replicate, length_replicate. }
  destruct (qlearning_experiment_run a td jp_model masked thetarange s
              Ht Hh Hm Hx HN)
    as (controller & env & eps & s' & Hlen & Hok & Hrun & Hlog).
  assert (Hten : Forall (fun ep => length (map tr_stats (ep_trials ep)) = 10%nat) eps).
  { eapply Forall_impl; [exact Hok|]. intros ep (Hl & _).
    by rewrite length_map. }
  assert (Hroll : rollouts (setup_log a td jp_model thetarange controller env
                            ++ epochs_log a td jp_model env masked 0 eps)
                  = flat_map (fun ep => map tr_stats (ep_trials ep)) eps).
  { by rewrite rollouts_app, rollouts_epochs. }
  exists (run_vars eps), s'. eexists.
  split; [exact Hrun|]. split; [exact Hlog|].
  rewrite Hroll. split; [|split].
  - split; [cbn; by rewrite length_map|].
    cbn. apply Forall_map. eapply Forall_impl; [exact Hok|].
    intros ep (Hl & Htr & _). cbn. split; [by rewrite length_map|].
    apply Forall_map. eapply Forall_impl; [exact Htr|].
    intros t Hlt. by apply (chunks_shape 20 25).
  - rewrite (length_flat_map_uniform _ 10) by done. by rewrite Hlen.
  - intros e q i j He Hq Hi Hj.
    destruct (lookup_lt_is_Some_2 eps e) as [ep Hep]; [lia|].
    pose proof (Forall_lookup_1 _ _ _ _ Hok Hep) as (Hl & Htr & _).
    destruct (lookup_lt_is_Some_2 (ep_trials ep) q) as [t Htq];
      [rewrite Hl; unfold n_qlearnings; lia|].
    pose proof (Forall_lookup_1 _ _ _ _ Htr Htq) as Hlt.
    destruct (lookup_lt_is_Some_2 (stats_rewards (tr_stats t)) (i * 25 + j))
      as [r Hr].
    { rewrite Hlt.
      change (Z.to_nat (n_test_episodes * n_test_steps)) with 500%nat. lia. }
    exists (tr_stats t), r. split; [|split; [exact Hr|]].
    + rewrite (lookup_flat_map_uniform _ 10) by done.
      rewrite Hep. cbn. by rewrite list_lookup_fmap, Htq.
    + unfold cell4. cbn [run_vars test_performance].
      rewrite list_lookup_fmap, Hep. cbn.
      rewrite list_lookup_fmap, Htq. cbn.
      unfold trial_slice.
      rewrite (chunks_lookup 20 25) by lia. exact Hr.
Qed.
Lemma learn_calls_setup (a : Args) (td : Dataset Obj)
    (jp_model thetarange controller env : Obj) :
  learn_calls (setup_log a td jp_model thetarange controller env) = [].
Proof. reflexivity. Qed.

Lemma plot_calls_setup (a : Args) (td : Dataset Obj)
    (jp_model thetarange controller env : Obj) :
  plot_calls (setup_log a td jp_model thetarange controller env) = [].
Proof. reflexivity. Qed.

(** C2. In every epoch each of the ten trials builds its own learner
    ([n_rbf = 100], the number of actions of the data set), fits it on the
    states the training call of that epoch returned, with discount [0.9],
    [10] iterations and [recompute_mapping = True], and the policy it
    returns goes into the agent of that trial's rollout and nowhere else:
    the log of the experiment is the log of the set-up followed, epoch by
    epoch, by the training call, the plot if any, and the ten blocks
    [trial_log] of the trials, each block starting from a new learner. *)
Theorem fresh_policy_per_trial (a : Args) (td : Dataset Obj)
    (jp_model : Obj) (s : state) :
  training_contract -> harness_contract ->
  dataset_ok td = true ->
  0 <= num_epochs a ->
  exists (masked : array1) (thetarange controller env : Obj)
         (eps : list epoch_run) (s' : state),
    qlearning_experiment a td jp_model s = (s', Ok (run_vars eps))
    /\ length eps = Z.to_nat (num_epochs a)
    /\ Forall (fun ep => length (ep_trials ep) = 10%nat) eps
    /\ log s' = log s
                ++ setup_log a td jp_model thetarange controller env
                ++ epochs_log a td jp_model env masked 0 eps
    /\ forall (e : Z) (ep : epoch_run) (q : Z) (t : trial_run),
         epoch_log a td jp_model env masked e ep
         = [ LearnStates jp_model 1 (batch_size a) "" (display a)
               (validation_ratio a) (ep_states ep, ep_history ep) ]
           ++ plot_log a jp_model (ep_states ep) masked e
           ++ trials_log a td env (ep_states ep) 0 (ep_trials ep)
         /\ trial_log a td env (ep_states ep) q t
            = [ FittedQIteration 100 (td_num_actions td) (tr_qit t);
                FitSk (tr_qit t) (ep_states ep) (td_actions_int td)
                  (td_rewards td) f0_9 10 true (tr_policy t);
                PlugPolicy (tr_policy t) (action_space_int env) (tr_plugged t);
                RoundBotAgent (tr_plugged t) (tr_agent t);
                RunInEnv (tr_agent t) env 20 None (tr_stats t) ]
              ++ (if verbose a
                  then [PyPrint q 20 (stats_reward_ep (tr_stats t))]
                  else []).
Proof.
  intros Ht Hh Hd HN.
  destruct (dataset_ok_inv td Hd) as (_ & [thetarange Hx] & [masked Hm]).
  destruct (qlearning_experiment_run a td jp_model masked thetarange s
              Ht Hh Hm Hx HN)
    as (controller & env & eps & s' & Hlen & Hok & Hrun & Hlog).
  exists masked, thetarange, controller, env, eps, s'.
  split; [exact Hrun|]. split; [exact Hlen|]. split.
  { eapply Forall_impl; [exact Hok|]. by intros ep (Hl & _). }
  split; [exact Hlog|]. intros e ep q t. split; reflexivity.
Qed.

(** C3. In Q-learning mode every iteration of the outer loop calls the
    training for one epoch ([num_epochs = 1]): the experiment makes
    [num_epochs] training calls, all for one epoch, and the first
    validation loss of each of the four terms returned by call number [e]
    is what the loss records hold at index [e] after the loop. *)
Theorem validation_losses_recorded (a : Args) (td : Dataset Obj)
    (jp_model : Obj) (s : state) :
  training_contract -> harness_contract ->
  dataset_ok td = true ->
  0 <= num_epochs a ->
  exists (v : Vars) (s' : state) (d : list (event Obj)),
    qlearning_experiment a td jp_model s = (s', Ok v)
    /\ log s' = log s ++ d
    /\ length (learn_calls d) = Z.to_nat (num_epochs a)
    /\ forall (e : nat) (n : Z) (h : History),
         learn_calls d !! e = Some (n, h) ->
         n = 1
         /\ exists lt lp lc lr : float,
              list_index (val_t_loss h) 0 = Ok lt
              /\ list_index (val_p_loss h) 0 = Ok lp
              /\ list_index (val_c_loss h) 0 = Ok lc
              /\ list_index (val_r_loss h) 0 = Ok lr
              /\ temporalcoherence_loss_record v !! e = Some lt
              /\ proportionality_loss_record v !! e = Some lp
              /\ causality_loss_record v !! e = Some lc
              /\ repeatability_loss_record v !! e = Some lr.
Proof.
  intros Ht Hh Hd HN.
  destruct (dataset_ok_inv td Hd) as (_ & [thetarange Hx] & [masked Hm]).
  destruct (qlearning_experiment_run a td jp_model masked thetarange s
              Ht Hh Hm Hx HN)
    as (controller & env & eps & s' & Hlen & Hok & Hrun & Hlog).
  exists (run_vars eps), s'. eexists.
  split; [exact Hrun|]. split; [exact Hlog|].
  rewrite learn_calls_app, learn_calls_epochs, learn_calls_setup.
  cbn [app]. split; [by rewrite length_map|].
  intros e n h He. rewrite list_lookup_fmap in He.
  destruct (eps !! e) as [ep|] eqn:Hep; [|done].
  cbn in He. injection He as <- <-. split; [done|].
  pose proof (Forall_lookup_1 _ _ _ _ Hok Hep) as (_ & _ & H1 & H2 & H3 & H4).
  exists (first_loss (val_t_loss (ep_history ep))),
         (first_loss (val_p_loss (ep_history ep))),
         (first_loss (val_c_loss (ep_history ep))),
         (first_loss (val_r_loss (ep_history ep))).
  rewrite !list_index_first by done. cbn [run_vars temporalcoherence_loss_record
    proportionality_loss_record causality_loss_record repeatability_loss_record].
  rewrite !list_lookup_fmap, Hep. by repeat split.
Qed.

Lemma plot_epoch_spec (e : Z) :
  plot_epoch e = true <-> e = 0 \/ (5 | e + 1).
Proof.
  unfold plot_epoch. rewrite orb_true_iff, !Z.eqb_eq.
  by rewrite Z.mod_divide.
Qed.

(** C5. In the Q-learning loop the representation is plotted on the
    first epoch ([learning_epoch = 0]) and on every epoch whose number
    [learning_epoch + 1] is a multiple of five, and on no other: these are
    the epochs that pass the test of line 217, and the plots the
    experiment makes are, in order, the plots ["_train_<learning_epoch + 1>"]
    of those epochs among [0 .. num_epochs - 1]. *)
Theorem representation_plot_epochs (a : Args) (td : Dataset Obj)
    (jp_model : Obj) (s : state) :
  training_contract -> harness_contract ->
  dataset_ok td = true ->
  0 <= num_epochs a ->
  (forall e : Z, plot_epoch e = true <-> e = 0 \/ (5 | e + 1))
  /\ exists (v : Vars) (s' : state) (d : list (event Obj)),
      qlearning_experiment a td jp_model s = (s', Ok v)
      /\ log s' = log s ++ d
      /\ plot_calls d
         = map (fun e => "_train_" +:+ str_of_int (e + 1))
             (List.filter plot_epoch (range (num_epochs a))).
Proof.
  intros Ht Hh Hd HN. split; [exact plot_epoch_spec|].
  destruct (dataset_ok_inv td Hd) as (_ & [thetarange Hx] & [masked Hm]).
  destruct (qlearning_experiment_run a td jp_model masked thetarange s
              Ht Hh Hm Hx HN)
    as (controller & env & eps & s' & Hlen & Hok & Hrun & Hlog).
  exists (run_vars eps), s'. eexists.
  split; [exact Hrun|]. split; [exact Hlog|].
  rewrite plot_calls_app, plot_calls_setup.
  change 0 with (Z.of_nat 0).
  rewrite (plot_calls_epochs a td jp_model env masked 0 eps).
  by rewrite Hlen.
Qed.
(** ** Checks on the arguments and seeding *)

Lemma str_truthy_normalize (r : string) :
  str_truthy (normalize_recordto r) = str_truthy r.
Proof.
  destruct r as [|c r]; [done|]. unfold normalize_recordto.
  by destruct (Ascii.eqb _ _).
Qed.

Lemma str_truthy_false (r : string) : str_truthy r = false <-> r = "".
Proof. by destruct r. Qed.

Lemma np_random_seed_cases (x : Z) (s : state) :
  (valid_seed x
   /\ np_random_seed x s
      = ({| world := effect (NpRandomSeed x) (world s);
            log := log s ++ [NpRandomSeed x] |}, Ok tt))
  \/ (~ valid_seed x
      /\ np_random_seed x s
         = (s, Raise (ValueError "Seed must be between 0 and 2**32 - 1"))).
Proof.
  unfold np_random_seed, valid_seed.
  destruct (Z.leb_spec 0 x); destruct (Z.ltb_spec x (2 ^ 32)); simpl;
    first [left; split; [lia|reflexivity] | right; split; [lia|reflexivity]].
Qed.

Lemma seed_value_cases (a : Args) (s : state) :
  (exists x, seed a = Some x /\ x <> 0 /\ seed_value a s = (s, Ok x))
  \/ ((seed a = None \/ seed a = Some 0)
      /\ seed_value a s
         = ({| world := (time_time (world s)).1;
               log := log s ++ [TimeTime (time_time (world s)).2] |},
            Ok (time_time (world s)).2)).
Proof.
  unfold seed_value, call. destruct (seed a) as [x|].
  - destruct (Z.eqb_spec x 0) as [->|Hx].
    + right. split; [by right|]. by destruct (time_time (world s)).
    + left. by exists x.
  - right. split; [by left|]. by destruct (time_time (world s)).
Qed.

Lemma seed_random_cases (a : Args) (s : state) :
  exists (s2 : state) (d : list (event Obj)) (r : outcome unit),
    seed_random a s = (s2, r) /\ log s2 = log s ++ d /\ no_work d
    /\ (r = Ok tt
        \/ r = Raise (ValueError "Seed must be between 0 and 2**32 - 1"))
    /\ (seed_contract a -> r = Ok tt).
Proof.
  unfold seed_random, mbind, M_bind.
  destruct (seed_value_cases a s) as [(x & Hs & Hx & ->)|[Hs ->]].
  - destruct (np_random_seed_cases x s) as [[Hv ->]|[Hv ->]].
    + eexists _, [_], _. split; [reflexivity|]. repeat split; auto.
      by repeat constructor.
    + exists s, [], (Raise (ValueError "Seed must be between 0 and 2**32 - 1")).
      split; [done|]. rewrite app_nil_r. repeat split; auto.
      * constructor.
      * unfold seed_contract. rewrite Hs.
        destruct (Z.eqb_spec x 0) as [?|_]; [done|]. intros Hc. by destruct Hv.
  - set (s1 := Build_state _ _).
    destruct (np_random_seed_cases (time_time (world s)).2 s1) as [[Hv ->]|[Hv ->]].
    + eexists _, [_; _], _. split; [reflexivity|]. subst s1. cbn [log].
      rewrite <- app_assoc. repeat split; auto. by repeat constructor.
    + eexists _, [_], _. split; [reflexivity|]. subst s1. cbn [log].
      repeat split; auto.
      * by repeat constructor.
      * unfold seed_contract. intros Hc. destruct Hv.
        destruct Hs as [Hs|Hs]; rewrite Hs in Hc; apply Hc.
Qed.

Lemma configure_cases (a : Args) (s : state) :
  let a' := set_recordto (normalize_recordto (recordto a)) a in
  exists (s1 : state) (d : list (event Obj)),
    log s1 = log s ++ d /\ no_work d
    /\ (recordto a = "" -> s1 = s)
    /\ configure a s =
       if negb (record_or_display a) then
         (s1, Raise (Exception msg_record_or_display))
       else if negb (qlearning_has_record a) then
         (s1, Raise (Exception msg_record_qlearning))
       else if negb (ratio_in_range a) then
         (s1, Raise (ValueError msg_validation_ratio))
       else
         match seed_random a s1 with
         | (s2, Ok _) => (s2, Ok a')
         | (s2, Raise e) => (s2, Raise e)
         end.
Proof.
  intros a'. unfold configure. fold a'.
  unfold record_or_display, qlearning_has_record, ratio_in_range.
  cbn [recordto display qlearning validation_ratio a' set_recordto].
  rewrite str_truthy_normalize.
  unfold mbind, M_bind at 1, when, perform.
  destruct (str_truthy (recordto a)) eqn:Hr.
  - exists {| world := effect (OsMakedirs (normalize_recordto (recordto a)) true)
                         (world s);
              log := log s ++ [OsMakedirs (normalize_recordto (recordto a)) true] |},
           [OsMakedirs (normalize_recordto (recordto a)) true].
    split; [reflexivity|]. split; [by repeat constructor|].
    split; [intros Hr0; by rewrite Hr0 in Hr|].
    destruct (qlearning a), (display a); cbn [orb negb andb mret M_ret];
      first [ done
            | destruct (F64.leb (validation_ratio a) zero
                        || F64.leb one (validation_ratio a));
              cbn [negb]; first [done | reflexivity] ].
  - exists s, []. rewrite app_nil_r. split; [done|]. split; [constructor|].
    split; [done|].
    destruct (qlearning a), (display a); cbn [orb negb andb mret M_ret];
      first [ done
            | destruct (F64.leb (validation_ratio a) zero
                        || F64.leb one (validation_ratio a));
              cbn [negb]; first [done | reflexivity] ].
Qed.

Lemma main_configure_raise (a : Args) (s s1 : state) (e : exn) :
  configure a s = (s1, Raise e) -> main a s = (s1, Raise e).
Proof. intros H. unfold main, mbind, M_bind. by rewrite H. Qed.
Lemma outcome_snd {A} (x : state * outcome A) (s1 : state) (r : outcome A) :
  x = (s1, r) -> x.2 = r.
Proof. by intros ->. Qed.

(** Comparisons of binary64 numbers: a number strictly between [0.0] and
    [1.0] is neither [<= 0.0] nor [>= 1.0]. *)
Lemma ratio_inside (x : float) :
  F64.ltb zero x = true -> F64.ltb x one = true ->
  F64.leb x zero || F64.leb one x = false.
Proof.
  unfold F64.ltb, F64.leb, SFltb, SFleb, zero, one.
  destruct x as [sg|sg| |sg m e]; try destruct sg;
    cbv beta iota delta [SFcompare]; try discriminate.
  intros _.
  rewrite (Z.compare_antisym e (-52)).
  destruct (e ?= -52) eqn:He; cbv beta iota delta [CompOpp orb];
    try discriminate; try reflexivity.
  pose proof (Pos.compare_cont_antisym m 4503599627370496 Eq) as Ha.
  change (CompOpp Eq) with Eq in Ha. rewrite <- Ha.
  destruct (Pos.compare_cont Eq m 4503599627370496);
    cbv beta iota delta [CompOpp]; try discriminate; reflexivity.
Qed.
(** C6. A [validation_ratio] with [validation_ratio <= 0.0] or
    [validation_ratio >= 1.0] makes the run fail with one of the three
    errors on the arguments before any data is loaded, any model built or
    any training done (with the [ValueError] of line 73 when the two
    earlier checks pass); a [validation_ratio] strictly between [0.0] and
    [1.0] passes the check of line 72. *)
Theorem validation_ratio_check (a : Args) :
  (F64.leb (validation_ratio a) zero = true
   \/ F64.leb one (validation_ratio a) = true ->
   forall s : state,
   exists (s' : state) (d : list (event Obj)) (e : exn),
     main a s = (s', Raise e)
     /\ log s' = log s ++ d /\ no_work d
     /\ (e = Exception msg_record_or_display
         \/ e = Exception msg_record_qlearning
         \/ e = ValueError msg_validation_ratio)
     /\ (record_or_display a = true -> qlearning_has_record a = true ->
         e = ValueError msg_validation_ratio))
  /\ (F64.ltb zero (validation_ratio a) = true ->
      F64.ltb (validation_ratio a) one = true ->
      ratio_in_range a = true
      /\ forall s : state,
           (configure a s).2 ≠ Raise (ValueError msg_validation_ratio)).
Proof.
  split.
  - intros Hvr s.
    assert (Hr : ratio_in_range a = false).
    { unfold ratio_in_range. apply negb_false_iff, orb_true_iff. exact Hvr. }
    destruct (configure_cases a s) as (s1 & d & Hlog & Hd & _ & Hc).
    rewrite Hr in Hc.
    destruct (record_or_display a), (qlearning_has_record a); cbn in Hc;
      apply main_configure_raise in Hc; eexists s1, d, _;
      (split; [exact Hc|]); (split; [exact Hlog|]); (split; [exact Hd|]);
      split; auto; done.
  - intros H0 H1.
    assert (Hr : ratio_in_range a = true).
    { unfold ratio_in_range. by rewrite ratio_inside. }
    split; [exact Hr|]. intros s.
    destruct (configure_cases a s) as (s1 & d & Hlog & Hd & _ & Hc).
    rewrite Hr in Hc. cbn [negb] in Hc.
    destruct (record_or_display a), (qlearning_has_record a); cbn in Hc;
      try (rewrite (outcome_snd _ _ _ Hc); done).
    destruct (seed_random_cases a s1) as (s2 & d2 & r & Hs & _ & _ & Hcase & _).
    rewrite Hs in Hc.
    destruct Hcase as [-> | ->]; rewrite (outcome_snd _ _ _ Hc); [done|].
    intros [=].
Qed.

(** C7. When Q-learning is asked for and no recording destination is
    given, the run fails on the arguments before it calls anything at all
    (with the error of line 70, or with that of line 67 when the display
    is not selected either); with a recording destination the check of
    line 69 passes. *)
Theorem qlearning_needs_record (a : Args) :
  (qlearning a = true -> recordto a = "" ->
   forall s : state,
     main a s
     = (s, Raise (Exception (if display a then msg_record_qlearning
                             else msg_record_or_display))))
  /\ (recordto a ≠ "" ->
      qlearning_has_record a = true
      /\ forall s : state,
           (configure a s).2 ≠ Raise (Exception msg_record_qlearning)).
Proof.
  split.
  - intros Hq Hr s.
    destruct (configure_cases a s) as (s1 & d & _ & _ & Hs & Hc).
    rewrite (Hs Hr) in Hc. apply main_configure_raise.
    unfold record_or_display, qlearning_has_record in Hc.
    rewrite Hr, Hq in Hc. by destruct (display a).
  - intros Hr.
    assert (Ht : str_truthy (recordto a) = true).
    { destruct (str_truthy (recordto a)) eqn:E; [done|].
      by apply str_truthy_false in E. }
    assert (Hq : qlearning_has_record a = true).
    { unfold qlearning_has_record. rewrite Ht. apply orb_true_r. }
    split; [exact Hq|]. intros s.
    destruct (configure_cases a s) as (s1 & d & _ & _ & _ & Hc).
    unfold record_or_display in Hc. rewrite Hq, Ht in Hc. cbn in Hc.
    destruct (ratio_in_range a); cbn in Hc;
      [|rewrite (outcome_snd _ _ _ Hc); done].
    destruct (seed_random_cases a s1) as (s2 & d2 & r & Hsd & _ & _ & Hcase & _).
    rewrite Hsd in Hc.
    destruct Hcase as [-> | ->]; rewrite (outcome_snd _ _ _ Hc); done.
Qed.

(** C8. When neither a recording destination nor the display is
    selected, the run fails with the error of line 67 before it calls
    anything at all; with either of them the check of line 66 passes. *)
Theorem record_or_display_required (a : Args) :
  (recordto a = "" -> display a = false ->
   forall s : state,
     main a s = (s, Raise (Exception msg_record_or_display)))
  /\ (recordto a ≠ "" \/ display a = true ->
      record_or_display a = true
      /\ forall s : state,
           (configure a s).2 ≠ Raise (Exception msg_record_or_display)).
Proof.
  split.
  - intros Hr Hdis s.
    destruct (configure_cases a s) as (s1 & d & _ & _ & Hs & Hc).
    rewrite (Hs Hr) in Hc. apply main_configure_raise.
    unfold record_or_display in Hc. by rewrite Hr, Hdis in Hc.
  - intros Hsel.
    assert (Hrd : record_or_display a = true).
    { unfold record_or_display. destruct Hsel as [Hr | ->];
        [|apply orb_true_r].
      destruct (str_truthy (recordto a)) eqn:E; [done|].
      by apply str_truthy_false in E. }
    split; [exact Hrd|]. intros s.
    destruct (configure_cases a s) as (s1 & d & _ & _ & _ & Hc).
    rewrite Hrd in Hc. cbn [negb] in Hc.
    destruct (qlearning_has_record a); cbn in Hc.
    2: { rewrite (outcome_snd _ _ _ Hc). intros [=]. }
    destruct (ratio_in_range a); cbn in Hc;
      [|rewrite (outcome_snd _ _ _ Hc); done].
    destruct (seed_random_cases a s1) as (s2 & d2 & r & Hsd & _ & _ & Hcase & _).
    rewrite Hsd in Hc.
    destruct Hcase as [-> | ->]; rewrite (outcome_snd _ _ _ Hc); done.
Qed.
(** ** Seeding *)

(** C10. The random source is seeded with the seed of the command line
    when that seed is not zero; when the seed is absent or zero the clock
    is read and the time is the seed, so that two runs with seed [0]
    started at different times seed the generator differently. *)
Theorem seed_source (a : Args) (s : state) :
  (forall x : Z, seed a = Some x -> x <> 0 -> valid_seed x ->
     exists s' : state,
       seed_random a s = (s', Ok tt)
       /\ log s' = log s ++ [NpRandomSeed x])
  /\ (seed a = None \/ seed a = Some 0 ->
      let now := (time_time (world s)).2 in
      valid_seed now ->
      exists s' : state,
        seed_random a s = (s', Ok tt)
        /\ log s' = log s ++ [TimeTime now; NpRandomSeed now])
  /\ (forall (s' : state) (r : outcome unit) (d : list (event Obj)),
        seed_random a s = (s', r) -> log s' = log s ++ d ->
        (forall t, TimeTime t ∉ d) ->
        exists x, seed a = Some x /\ x <> 0)
  /\ (let a0 := Toy.args_of true "out" false Toy.f0_1 (Some 0)
                  [one; Toy.f5; one; Toy.f5] in
      let run1 := main (C := Toy.collaborators) a0 (Toy.start 1700000000) in
      let run2 := main (C := Toy.collaborators) a0 (Toy.start 1700000060) in
      run1.2 = Ok tt /\ run2.2 = Ok tt
      /\ seedings (log run1.1) = [1700000000]
      /\ seedings (log run2.1) = [1700000060]).
Proof.
  split; [|split; [|split]].
  - intros x Hs Hx Hv. unfold seed_random, mbind, M_bind.
    destruct (seed_value_cases a s) as [(x' & Hs' & _ & ->)|[[Hs'|Hs'] _]];
      try congruence.
    assert (x' = x) as -> by congruence.
    destruct (np_random_seed_cases x s) as [[_ ->]|[Hn _]]; [|done].
    by eexists.
  - intros Hs now Hv. unfold seed_random, mbind, M_bind.
    destruct (seed_value_cases a s) as [(x' & Hs' & Hx' & _)|[_ ->]].
    { destruct Hs as [Hs|Hs]; congruence. }
    set (s1 := Build_state _ _).
    destruct (np_random_seed_cases now s1) as [[_ Hrun]|[Hn _]]; [|done].
    fold now. rewrite Hrun. eexists. split; [reflexivity|].
    subst s1. cbn [log]. by rewrite <- app_assoc.
  - intros s' r d Hrun Hlog Hno.
    destruct (seed_value_cases a s) as [(x & Hs & Hx & _)|[_ Hv]].
    { by exists x. }
    exfalso. unfold seed_random, mbind, M_bind in Hrun. rewrite Hv in Hrun.
    set (s1 := Build_state _ _) in Hrun.
    apply (Hno (time_time (world s)).2).
    destruct (np_random_seed_cases (time_time (world s)).2 s1)
      as [[_ Hr]|[_ Hr]]; rewrite Hr in Hrun; injection Hrun as <- _;
      subst s1; cbn [log] in Hlog; rewrite <- ?app_assoc in Hlog;
      apply app_inv_head in Hlog; subst d; constructor.
  - by vm_compute.
Qed.
(** ** Unweighting of the recorded losses *)

Lemma div_by_zero_not_finite (x w : float) :
  F64.is_finite x = true -> F64.is_zero w = true ->
  F64.is_finite (F64.div x w) = false.
Proof. by destruct x, w. Qed.

Lemma configure_weights (ws : list float) (a : Args) (s : state) :
  configure (set_weights ws a) s
  = match configure a s with
    | (s', Ok a') => (s', Ok (set_weights ws a'))
    | (s', Raise e) => (s', Raise e)
    end.
Proof.
  unfold configure.
  change (seed_random (set_recordto (normalize_recordto
            (recordto (set_weights ws a))) (set_weights ws a)))
    with (seed_random (set_recordto (normalize_recordto (recordto a)) a)).
  unfold mbind, M_bind, when, perform.
  cbn [recordto display qlearning validation_ratio set_weights set_recordto].
  destruct (str_truthy (normalize_recordto (recordto a)));
    cbn [orb negb andb mret M_ret];
    destruct (qlearning a), (display a); cbn [orb negb andb]; try done;
    destruct (F64.leb (validation_ratio a) zero
              || F64.leb one (validation_ratio a)); try done;
    by destruct (seed_random _ _) as [st' [u|e]].
Qed.

(** C9. After the experiment each recorded series is divided, entry by
    entry, by its weight: the temporal-coherence losses by [weights[0]],
    the proportionality losses by [weights[1]], the causality losses by
    [weights[2]], the repeatability losses by [weights[3]].  Nothing
    guards the division: a weight that is zero turns every finite loss of
    its series into an infinity or a NaN, and the checks on the arguments
    accept any weights. *)
Theorem losses_unweighted (a : Args) (v : Vars) (s : state) :
  (forall w0 w1 w2 w3 : float,
     weights a = [w0; w1; w2; w3] ->
     unweight_losses a v s
     = (s, Ok {| states := states v;
                 temporalcoherence_loss_record :=
                   map (fun x => F64.div x w0) (temporalcoherence_loss_record v);
                 proportionality_loss_record :=
                   map (fun x => F64.div x w1) (proportionality_loss_record v);
                 causality_loss_record :=
                   map (fun x => F64.div x w2) (causality_loss_record v);
                 repeatability_loss_record :=
                   map (fun x => F64.div x w3) (repeatability_loss_record v);
                 test_performance := test_performance v |}))
  /\ (forall (w : float) (l : array1),
        F64.is_zero w = true ->
        Forall (fun x => F64.is_finite x = true) l ->
        Forall (fun y => F64.is_finite y = false) (np_div_scalar l w))
  /\ (forall ws : list float,
        is_ok (configure (set_weights ws a) s).2 = is_ok (configure a s).2).
Proof.
  split; [|split].
  - intros w0 w1 w2 w3 Hw. unfold unweight_losses. rewrite Hw. reflexivity.
  - intros w l Hw Hl. unfold np_div_scalar. apply Forall_map.
    eapply Forall_impl; [exact Hl|]. intros x Hx. cbn.
    by apply div_by_zero_not_finite.
  - intros ws. rewrite configure_weights.
    by destruct (configure a s) as [s' [a'|e]].
Qed.
(** ** The run up to the plots *)

Lemma learn_calls_no_work (d : list (event Obj)) :
  no_work d -> learn_calls d = [].
Proof.
  induction 1 as [|ev d Hev _ IH]; [done|].
  change (ev :: d) with ([ev] ++ d). rewrite learn_calls_app, IH.
  by destruct ev.
Qed.

Lemma configure_run (a : Args) (s : state) :
  record_or_display a = true -> qlearning_has_record a = true ->
  ratio_in_range a = true -> seed_contract a ->
  exists (s' : state) (d : list (event Obj)),
    configure a s
    = (s', Ok (set_recordto (normalize_recordto (recordto a)) a))
    /\ log s' = log s ++ d /\ no_work d.
Proof.
  intros H1 H2 H3 Hseed.
  destruct (configure_cases a s) as (s1 & d1 & Hlog1 & Hd1 & _ & Hc).
  rewrite H1, H2, H3 in Hc. cbn [negb] in Hc.
  destruct (seed_random_cases a s1)
    as (s2 & d2 & r & Hs & Hlog2 & Hd2 & _ & Hok).
  rewrite Hs, (Hok Hseed) in Hc.
  exists s2, (d1 ++ d2). split; [exact Hc|]. split.
  - by rewrite Hlog2, Hlog1, <- app_assoc.
  - by apply Forall_app.
Qed.

Lemma load_and_build_run (a : Args) (s : state) :
  data_contract a ->
  exists (td : Dataset Obj) (jp_model : Obj) (s' : state)
         (d : list (event Obj)),
    load_and_build a s = (s', Ok (td, jp_model))
    /\ dataset_ok td = true
    /\ log s' = log s ++ d /\ learn_calls d = [].
Proof.
  intros Hdata. pose proof (Hdata (world s)) as Hok.
  unfold load_and_build, mbind, M_bind, call at 1.
  destruct (tools_load_data _ _) as [w1 td]. cbn [snd] in Hok.
  destruct (dataset_ok_inv td Hok) as (Hobs & _ & _).
  assert (exists obs0, td_observations td !! Z.to_nat 0 = Some obs0)
    as [obs0 Hobs0].
  { destruct (td_observations td) as [|obs0 obs]; [done|]. by exists obs0. }
  unfold lift, call. rewrite (list_index_nat _ 0 obs0) by done.
  cbn [world log].
  destruct (jonschkowski_priors_Priors_model _ _ _ _ _ _ _ _)
    as [w2 jp_model].
  eexists td, jp_model, _, [_; _]. split; [reflexivity|].
  split; [exact Hok|]. cbn [log]. split; [by rewrite <- app_assoc|done].
Qed.

(** C4. In Q-learning mode, once the arguments are accepted, the outer
    loop makes [num_epochs] iterations, one training call each, whatever
    losses and rewards the collaborators return, and the run goes on with
    the plots: nothing in the loop stops it early. *)
Theorem loop_runs_num_epochs (a : Args) (s : state) :
  qlearning a = true -> recordto a ≠ "" ->
  ratio_in_range a = true ->
  seed_contract a -> data_contract a ->
  training_contract -> harness_contract ->
  0 <= num_epochs a ->
  exists (v : Vars) (s' : state) (d : list (event Obj)),
    main a s
    = plotting (set_recordto (normalize_recordto (recordto a)) a) v s'
    /\ log s' = log s ++ d
    /\ length (learn_calls d) = Z.to_nat (num_epochs a)
    /\ Forall (fun c => c.1 = 1) (learn_calls d)
    /\ length (temporalcoherence_loss_record v) = Z.to_nat (num_epochs a).
Proof.
  intros Hq Hr Hratio Hseed Hdata Ht Hh HN.
  assert (Htr : str_truthy (recordto a) = true).
  { destruct (str_truthy (recordto a)) eqn:E; [done|].
    by apply str_truthy_false in E. }
  destruct (configure_run a s) as (s1 & d1 & Hc & Hlog1 & Hd1);
    try done.
  { unfold record_or_display. by rewrite Htr. }
  { unfold qlearning_has_record. rewrite Htr. apply orb_true_r. }
  set (a' := set_recordto (normalize_recordto (recordto a)) a) in *.
  destruct (load_and_build_run a' s1 Hdata)
    as (td & jp_model & s2 & d2 & Hl & Hok & Hlog2 & Hd2).
  destruct (dataset_ok_inv td Hok) as (_ & [thetarange Hx] & [masked Hm]).
  destruct (qlearning_experiment_run a' td jp_model masked thetarange s2
              Ht Hh Hm Hx HN)
    as (controller & env & eps & s3 & Hlen & Hoks & Hrun & Hlog3).
  exists (run_vars eps), s3. eexists.
  split; [|split; [|split; [|split]]].
  - unfold main, mbind, M_bind. rewrite Hc, Hl.
    unfold experiment.
    change (qlearning a') with (qlearning a). rewrite Hq. cbn [negb].
    by rewrite Hrun.
  - rewrite Hlog3, Hlog2, Hlog1. rewrite <- !app_assoc. reflexivity.
  - rewrite !learn_calls_app, (learn_calls_no_work d1 Hd1), Hd2,
      learn_calls_setup, learn_calls_epochs.
    cbn [app]. by rewrite length_map.
  - rewrite !learn_calls_app, (learn_calls_no_work d1 Hd1), Hd2,
      learn_calls_setup, learn_calls_epochs.
    cbn [app]. apply Forall_map. by apply Forall_true.
  - cbn. by rewrite length_map.
Qed.
End Proofs.

(** * Further properties of the script *)

Section Extras.

Context `{C : Collaborators}.

#[local] Existing Instance M_ret.
#[local] Existing Instance M_bind.

(** ** What a computation may log *)

Lemma emits_ret {A} (P : event Obj -> Prop) (a : A) : emits P (mret a).
Proof.
  intros st st' r [= <- <-]. exists []. by rewrite app_nil_r.
Qed.

Lemma emits_raise {A} (P : event Obj -> Prop) (e : exn) :
  emits P (raise (A := A) e).
Proof.
  intros st st' r [= <- <-]. exists []. by rewrite app_nil_r.
Qed.

Lemma emits_lift {A} (P : event Obj -> Prop) (x : outcome A) :
  emits P (lift x).
Proof.
  intros st st' r [= <- <-]. exists []. by rewrite app_nil_r.
Qed.

Lemma emits_perform (P : event Obj -> Prop) (ev : event Obj) :
  P ev -> emits P (perform ev).
Proof.
  intros Hev st st' r [= <- <-]. exists [ev]. split; [done|].
  by repeat constructor.
Qed.

Lemma emits_call {R} (P : event Obj -> Prop) (f : World -> World * R)
    (mk : R -> event Obj) :
  (forall w, P (mk (f w).2)) -> emits P (call f mk).
Proof.
  intros Hev st st' r. unfold call. pose proof (Hev (world st)) as H.
  destruct (f (world st)) as [w x]. intros [= <- <-]. exists [mk x].
  split; [done|]. by repeat constructor.
Qed.

(** Sequencing: the continuation is only run on values the first part
    returns. *)
Lemma emits_bind {A B} (P : event Obj -> Prop) (m : M A) (k : A -> M B) :
  emits P m ->
  (forall a, (exists st st', m st = (st', Ok a)) -> emits P (k a)) ->
  emits P (mbind k m).
Proof.
  intros Hm Hk st st' r. unfold mbind, M_bind.
  destruct (m st) as [st1 [a|e]] eqn:E.
  - intros Hrun. destruct (Hm _ _ _ E) as (d1 & Hl1 & Hd1).
    destruct (Hk a (ex_intro _ st (ex_intro _ st1 E)) _ _ _ Hrun)
      as (d2 & Hl2 & Hd2).
    exists (d1 ++ d2). split; [by rewrite Hl2, Hl1, <- app_assoc|].
    by apply Forall_app.
  - intros [= <- <-]. exact (Hm _ _ _ E).
Qed.

Lemma emits_when (P : event Obj -> Prop) (b : bool) (m : M unit) :
  (b = true -> emits P m) -> emits P (when b m).
Proof.
  destruct b; intros H; [by apply H|apply emits_ret].
Qed.

Lemma emits_for_each {A S} (P : event Obj -> Prop) (xs : list A)
    (body : A -> S -> M S) :
  (forall x s, emits P (body x s)) ->
  forall s, emits P (for_each xs body s).
Proof.
  intros Hb. induction xs as [|x xs IH]; intros s; cbn [for_each].
  - apply emits_ret.
  - apply emits_bind; [apply Hb|]. intros s' _. apply IH.
Qed.

Ltac emits_step :=
  lazymatch goal with
  | |- emits _ (mbind _ _) => apply emits_bind; [|intros ? ?]
  | |- emits _ (mret _) => apply emits_ret
  | |- emits _ (raise _) => apply emits_raise
  | |- emits _ (lift _) => apply emits_lift
  | |- emits _ (perform _) => apply emits_perform
  | |- emits _ (call _ _) => apply emits_call; intros ?
  | |- emits _ (when _ _) => apply emits_when; intros ?
  | |- emits _ (for_each _ _ _) => apply emits_for_each; intros ? ?
  | |- emits _ (if ?b then _ else _) => destruct b eqn:?
  | |- emits _ (match ?x with _ => _ end) => destruct x eqn:?
  end.

(** Every computation of the script only appends to the log. *)
Lemma seed_random_emits (P : event Obj -> Prop) (a : Args) :
  (forall t, P (TimeTime t)) -> (forall x, P (NpRandomSeed x)) ->
  emits P (seed_random a).
Proof.
  intros Ht Hs. unfold seed_random, seed_value, np_random_seed.
  repeat emits_step; auto.
Qed.

(** ** Lines 60-76 once more: where the state stands at each exit *)

Lemma configure_unfold (a : Args) (s : state) :
  configure a s =
  if negb (record_or_display a) then
    (after_makedirs a s, Raise (Exception msg_record_or_display))
  else if negb (qlearning_has_record a) then
    (after_makedirs a s, Raise (Exception msg_record_qlearning))
  else if negb (ratio_in_range a) then
    (after_makedirs a s, Raise (ValueError msg_validation_ratio))
  else
    match seed_random a (after_makedirs a s) with
    | (s2, Ok _) => (s2, Ok (set_recordto (normalize_recordto (recordto a)) a))
    | (s2, Raise e) => (s2, Raise e)
    end.
Proof.
  unfold configure, after_makedirs.
  unfold record_or_display, qlearning_has_record, ratio_in_range.
  cbn [recordto display qlearning validation_ratio set_recordto].
  rewrite str_truthy_normalize.
  unfold mbind, M_bind at 1, when, perform.
  destruct (str_truthy (recordto a));
    destruct (qlearning a), (display a); cbn [orb negb andb mret M_ret];
      first [ done
            | destruct (F64.leb (validation_ratio a) zero
                        || F64.leb one (validation_ratio a));
              cbn [negb]; first [done | reflexivity] ].
Qed.

Lemma configure_returns (a a' : Args) (s s' : state) :
  configure a s = (s', Ok a') ->
  a' = set_recordto (normalize_recordto (recordto a)) a.
Proof.
  rewrite configure_unfold.
  destruct (negb (record_or_display a)); [done|].
  destruct (negb (qlearning_has_record a)); [done|].
  destruct (negb (ratio_in_range a)); [done|].
  destruct (seed_random a (after_makedirs a s)) as [s2 [u|e]]; [|done].
  by intros [= _ <-].
Qed.

Lemma configure_emits (P : event Obj -> Prop) (a : Args) :
  (str_truthy (recordto a) = true ->
   P (OsMakedirs (normalize_recordto (recordto a)) true)) ->
  (forall t, P (TimeTime t)) -> (forall x, P (NpRandomSeed x)) ->
  emits P (configure a).
Proof.
  intros Hmk Ht Hs st st' r. rewrite configure_unfold.
  assert (Ha : exists d, log (after_makedirs a st) = log st ++ d /\ Forall P d).
  { unfold after_makedirs. destruct (str_truthy (recordto a)).
    - eexists [_]. split; [reflexivity|]. repeat constructor. by apply Hmk.
    - exists []. by rewrite app_nil_r. }
  destruct Ha as (d1 & Hl1 & Hd1).
  destruct (negb (record_or_display a)); [intros [= <- <-]; eauto|].
  destruct (negb (qlearning_has_record a)); [intros [= <- <-]; eauto|].
  destruct (negb (ratio_in_range a)); [intros [= <- <-]; eauto|].
  destruct (seed_random a (after_makedirs a st)) as [s2 o] eqn:E.
  destruct (seed_random_emits P a Ht Hs _ _ _ E) as (d2 & Hl2 & Hd2).
  assert (log s2 = log st ++ d1 ++ d2 /\ Forall P (d1 ++ d2)) as [Hl Hd].
  { split; [by rewrite Hl2, Hl1, <- app_assoc|by apply Forall_app]. }
  destruct o; intros [= <- <-]; eauto.
Qed.

(** ** What a run never does *)

(** X1. Without a recording destination the script never creates a
    directory and never saves a figure, and every collaborator that takes
    a destination is given the empty one: this holds for every call of a
    run, however the run ends. *)
Theorem no_record_without_destination (a : Args) :
  recordto a = "" ->
  emits (fun ev => no_record ev = true) (main a).
Proof.
  intros Hr. unfold main. apply emits_bind.
  { apply configure_emits; try done. by rewrite Hr. }
  intros a' (st & st' & Hret). apply configure_returns in Hret.
  assert (Hr' : recordto a' = "") by (subst a'; cbn; by rewrite Hr).
  clear Hret.
  unfold load_and_build, experiment, simple_learning, qlearning_experiment,
    make_env, experiment_loop, learning_iteration, plot_representation,
    qlearning_trial, plotting, unweight_losses, plot_losses, plot_pca,
    plot_rewards, show_and_save.
  repeat (emits_step; try done; rewrite ?Hr' in *; try done).
Qed.

(** X2. Outside the Q-learning mode the script never builds a controller
    or an environment, never fits or runs a policy, and never makes the
    plots of the Q-learning experiment: this holds for every call of a
    run, however the run ends. *)
Theorem no_rl_without_qlearning (a : Args) :
  qlearning a = false ->
  emits (fun ev => is_rl ev = false) (main a).
Proof.
  intros Hq. unfold main. apply emits_bind.
  { apply configure_emits; done. }
  intros a' (st & st' & Hret). apply configure_returns in Hret.
  assert (Hq' : qlearning a' = false) by (subst a'; exact Hq).
  clear Hret.
  unfold load_and_build, experiment, plotting, plot_rewards.
  rewrite Hq'. cbn [negb].
  unfold simple_learning, unweight_losses, plot_losses, plot_pca,
    show_and_save.
  repeat (emits_step; try done).
Qed.

(** ** The recording destination *)

Lemma last_char_append_slash (c : ascii) (s : string) :
  last_char c (s +:+ "/") = "/"%char.
Proof. revert c. induction s as [|c' s IH]; intros c; [done|]. apply IH. Qed.

Lemma last_char_slash_eqb (c : ascii) (s : string) :
  Ascii.eqb (last_char c s) "/" = true -> last_char c s = "/"%char.
Proof. apply Ascii.eqb_eq. Qed.

(** X3. The destination as the script uses it (lines 60-61) is the one
    given or the one given followed by a slash; it is empty exactly when
    the one given is, ends with a slash otherwise, and normalising it
    again changes nothing. *)
Theorem normalize_recordto_slash (r : string) :
  (normalize_recordto r = r \/ normalize_recordto r = r +:+ "/")
  /\ (normalize_recordto r = "" <-> r = "")
  /\ (r ≠ "" ->
      exists c s, normalize_recordto r = String c s
                  /\ last_char c s = "/"%char)
  /\ normalize_recordto (normalize_recordto r) = normalize_recordto r.
Proof.
  destruct r as [|c s].
  { split; [by left|]. split; [done|]. split; done. }
  assert (Hn : normalize_recordto (String c s) = String c s
               /\ last_char c s = "/"%char
               \/ normalize_recordto (String c s) = String c (s +:+ "/")).
  { unfold normalize_recordto.
    destruct (Ascii.eqb (last_char c s) "/") eqn:E; [left|by right].
    split; [done|]. by apply last_char_slash_eqb. }
  split; [|split; [|split]].
  - destruct Hn as [[-> _]| ->]; [by left|by right].
  - destruct Hn as [[-> _]| ->]; done.
  - intros _. destruct Hn as [[-> Hl]| ->].
    + by exists c, s.
    + exists c, (s +:+ "/"). split; [done|]. apply last_char_append_slash.
  - destruct Hn as [[Hn _]|Hn]; rewrite !Hn; [done|].
    unfold normalize_recordto. by rewrite last_char_append_slash.
Qed.

(** ** The point of view of the environment *)

Lemma eqb_zero_is_zero (f : float) : F64.eqb f zero = F64.is_zero f.
Proof. destruct f as [sg|sg| |sg m e]; try destruct sg; reflexivity. Qed.

(** X4. Lines 163-169 as a table: the environment gets [True] when
    ['auto_global_pov'] is set or ['global_pov'] is [True] or a number
    equal to [1.0]; it gets the triple [(0.0, global_pov, 0.0)] when
    ['global_pov'] is a number other than zero and one (a NaN included);
    it gets [None] for [None], [False] and a zero.  The middle of the
    triple is always a number, never a bool. *)
Theorem global_pov_cases (ea : EnvArgs Obj) :
  global_pov_of ea =
  if ea_auto_global_pov ea then PovTrue
  else match ea_global_pov ea with
       | PyNone => PovNone
       | PyBool b => if b then PovTrue else PovNone
       | PyFloat f =>
           if F64.eqb f one then PovTrue
           else if F64.is_zero f then PovNone
           else PovTuple zero (PyFloat f) zero
       end.
Proof.
  unfold global_pov_of.
  destruct (ea_auto_global_pov ea); [vm_compute; reflexivity|].
  destruct (ea_global_pov ea) as [|[|]|f];
    [vm_compute; reflexivity..|].
  unfold py_ne_float, truthy. rewrite eqb_zero_is_zero.
  destruct (F64.eqb f one); cbn [negb]; [done|].
  by destruct (F64.is_zero f).
Qed.

(** ** The rewards shown on the plot of the representation *)

Lemma lookup_removelast {A} (l : list A) (i : nat) :
  (S i < length l)%nat -> removelast l !! i = l !! i.
Proof.
  revert i. induction l as [|x l IH]; intros i Hi; [simpl in Hi; lia|].
  destruct l as [|y l]; [simpl in Hi; lia|].
  destruct i as [|i]; [done|].
  change (removelast (x :: y :: l)) with (x :: removelast (y :: l)).
  cbn [lookup list_lookup]. apply IH. simpl in *. lia.
Qed.

Lemma length_removelast {A} (l : list A) :
  length (removelast l) = pred (length l).
Proof.
  induction l as [|x l IH]; [done|].
  destruct l as [|y l]; [done|].
  change (removelast (x :: y :: l)) with (x :: removelast (y :: l)).
  cbn [length]. rewrite IH. done.
Qed.

(** X5. Line 221 pairs reward [i] with the episode flag [i + 1]: when the
    data set has as many rewards as flags, the array handed to the plot
    has one entry less, and its entry [i] is reward [i] times [1.0] if
    step [i + 1] does not start an episode and times [0.0] if it does. *)
Theorem masked_rewards_lookup (td : Dataset Obj) :
  length (td_rewards td) = length (td_episode_starts td) ->
  exists masked : array1,
    masked_rewards td = Ok masked
    /\ length masked = pred (length (td_rewards td))
    /\ forall (i : nat) (r : float) (b : bool),
         td_rewards td !! i = Some r ->
         td_episode_starts td !! S i = Some b ->
         masked !! i = Some (F64.mul r (of_bool (negb b))).
Proof.
  intros Hlen. unfold masked_rewards, np_zip.
  assert (Hl : length (removelast (td_rewards td))
               = length (map (fun b => of_bool (negb b))
                           (tail (td_episode_starts td)))).
  { rewrite length_removelast, length_map, length_tl. lia. }
  rewrite Hl, Nat.eqb_refl. eexists. split; [reflexivity|]. split.
  - rewrite length_zip_with, <- Hl, length_removelast. lia.
  - intros i r b Hr Hb. rewrite lookup_zip_with.
    pose proof (lookup_lt_Some _ _ _ Hb) as Hi.
    rewrite lookup_removelast by lia. rewrite Hr. cbn.
    rewrite list_lookup_fmap, lookup_tail, Hb. done.
Qed.

(** ** The plots *)

Lemma np_zip_same (f : float -> float -> float) (a b : array1) :
  length a = length b -> np_zip f a b = Ok (zip_with f a b).
Proof. intros H. unfold np_zip. by rewrite H, Nat.eqb_refl. Qed.

Lemma rollouts_no_work (d : list (event Obj)) :
  no_work d -> rollouts d = [].
Proof.
  induction 1 as [|ev d Hev _ IH]; [done|].
  change (ev :: d) with ([ev] ++ d). rewrite rollouts_app, IH.
  by destruct ev.
Qed.

Lemma saved_files_app (l1 l2 : list (event Obj)) :
  saved_files (l1 ++ l2) = saved_files l1 ++ saved_files l2.
Proof. apply omap_app. Qed.

Lemma inputs_app (l1 l2 : list (event Obj)) :
  inputs (l1 ++ l2) = inputs l1 ++ inputs l2.
Proof. apply omap_app. Qed.

(** Rules for computations that end normally. *)

Lemma ok_ret {A} (x : A) (st : state) (Q : list (event Obj) -> A -> Prop) :
  Q [] x -> ok_with (mret x) st Q.
Proof. intros H. exists st, [], x. by rewrite app_nil_r. Qed.

Lemma ok_lift {A} (x : A) (st : state) (Q : list (event Obj) -> A -> Prop) :
  Q [] x -> ok_with (lift (Ok x)) st Q.
Proof. intros H. exists st, [], x. by rewrite app_nil_r. Qed.

Lemma ok_perform (ev : event Obj) (st : state)
    (Q : list (event Obj) -> unit -> Prop) :
  Q [ev] tt -> ok_with (perform ev) st Q.
Proof. intros H. by eexists _, [ev], tt. Qed.

Lemma ok_call {R} (f : World -> World * R) (mk : R -> event Obj)
    (st : state) (Q : list (event Obj) -> R -> Prop) :
  (forall w, Q [mk (f w).2] (f w).2) -> ok_with (call f mk) st Q.
Proof.
  intros H. unfold ok_with, call. pose proof (H (world st)) as Hw.
  destruct (f (world st)) as [w x]. by eexists _, [mk x], x.
Qed.

Lemma ok_bind {A B} (m : M A) (k : A -> M B) (st : state)
    (Q : list (event Obj) -> B -> Prop) :
  ok_with m st
    (fun d1 a => forall st1, ok_with (k a) st1 (fun d2 b => Q (d1 ++ d2) b)) ->
  ok_with (mbind k m) st Q.
Proof.
  intros (st1 & d1 & a & Hm & Hl1 & Hk).
  destruct (Hk st1) as (st2 & d2 & b & Hka & Hl2 & HQ).
  exists st2, (d1 ++ d2), b. unfold mbind, M_bind. rewrite Hm.
  split; [done|]. split; [|done]. by rewrite Hl2, Hl1, <- app_assoc.
Qed.

Ltac ok_step :=
  cbv beta;
  lazymatch goal with
  | |- ok_with (mbind _ _) _ _ => apply ok_bind
  | |- ok_with (mret _) _ _ => apply ok_ret
  | |- ok_with (lift (Ok _)) _ _ => apply ok_lift
  | |- ok_with (perform _) _ _ => apply ok_perform
  | |- ok_with (call _ _) _ _ => apply ok_call; intros ?
  | |- forall _ : state, _ => intros ?
  end.



(** ** Runs that stop at the arguments *)

(** X7. The destination is created before the arguments are checked: a
    run with a destination and a validation ratio out of range has
    called [os.makedirs] on the destination, and nothing else, when it
    raises the [ValueError] of line 73. *)
Theorem rejected_run_creates_directory (a : Args) (s : state) :
  recordto a ≠ "" -> ratio_in_range a = false ->
  main a s
  = ({| world := effect (OsMakedirs (normalize_recordto (recordto a)) true)
                   (world s);
        log := log s ++ [OsMakedirs (normalize_recordto (recordto a)) true] |},
     Raise (ValueError msg_validation_ratio)).
Proof.
  intros Hr Hratio. apply main_configure_raise. rewrite configure_unfold.
  assert (Ht : str_truthy (recordto a) = true).
  { destruct (str_truthy (recordto a)) eqn:E; [done|].
    by apply str_truthy_false in E. }
  unfold record_or_display, qlearning_has_record, after_makedirs.
  rewrite Hratio, Ht. cbn [orb negb]. by rewrite orb_true_r.
Qed.

(** X8. A seed of the command line that numpy does not accept (negative,
    or [2**32] and more) stops the run with numpy's [ValueError] right
    after the checks: the clock is not read, no data is loaded. *)
Theorem seed_out_of_range (a : Args) (s : state) (x : Z) :
  record_or_display a = true -> qlearning_has_record a = true ->
  ratio_in_range a = true ->
  seed a = Some x -> ~ valid_seed x ->
  main a s
  = (after_makedirs a s,
     Raise (ValueError "Seed must be between 0 and 2**32 - 1")).
Proof.
  intros H1 H2 H3 Hs Hx. apply main_configure_raise.
  rewrite configure_unfold, H1, H2, H3. cbn [negb].
  unfold seed_random, seed_value, mbind, M_bind. rewrite Hs.
  destruct (Z.eqb_spec x 0) as [->|_].
  { destruct Hx. unfold valid_seed. lia. }
  cbn [mret M_ret].
  by destruct (np_random_seed_cases x (after_makedirs a s))
    as [[Hv _]|[_ ->]].
Qed.

(** ** Runs that stop after loading *)

Lemma quiet_projections (d : list (event Obj)) :
  Forall (fun ev => quiet ev = true) d ->
  saved_files d = [] /\ inputs d = [] /\ rollouts d = [].
Proof.
  induction 1 as [|ev d Hev _ (IH1 & IH2 & IH3)]; [done|].
  change (ev :: d) with ([ev] ++ d).
  rewrite saved_files_app, inputs_app, rollouts_app, IH1, IH2, IH3.
  by destruct ev.
Qed.

Lemma configure_run_log (a : Args) (s s' : state) (a' : Args) :
  configure a s = (s', Ok a') ->
  exists d, log s' = log s ++ d /\ no_work d
            /\ Forall (fun ev => quiet ev = true) d
            /\ Forall (fun ev => is_rl ev = false) d.
Proof.
  intros Hc.
  assert (He : emits (fun ev => is_work ev = false /\ quiet ev = true
                                /\ is_rl ev = false) (configure a))
    by (apply configure_emits; done).
  destruct (He _ _ _ Hc) as (d & Hl & Hd).
  exists d. split; [done|].
  repeat split; (eapply Forall_impl; [exact Hd|]); by intros ev (? & ? & ?).
Qed.

(** X9. A data file without observations stops the run with an
    [IndexError] at line 83: the file has been loaded, no model is
    built. *)
Theorem empty_dataset_aborts (a : Args) (s : state) :
  record_or_display a = true -> qlearning_has_record a = true ->
  ratio_in_range a = true -> seed_contract a ->
  (forall w, td_observations (tools_load_data (training_data a) w).2 = []) ->
  exists (s' : state) (d : list (event Obj)) (td : Dataset Obj)
         (msg : string),
    main a s = (s', Raise (IndexError msg))
    /\ log s' = log s ++ d ++ [LoadData (training_data a) td]
    /\ no_work d.
Proof.
  intros H1 H2 H3 Hseed Hempty.
  destruct (configure_run a s H1 H2 H3 Hseed) as (s1 & d1 & Hc & Hl1 & Hd1).
  pose proof (Hempty (world s1)) as He.
  unfold main, mbind, M_bind. rewrite Hc.
  unfold load_and_build, mbind, M_bind, call, lift.
  cbn [training_data set_recordto].
  destruct (tools_load_data (training_data a) (world s1)) as [w1 td].
  cbn [snd] in He. rewrite He. cbn [list_index length].
  eexists _, d1, td, _. split; [reflexivity|]. cbn [log].
  split; [by rewrite Hl1, <- app_assoc|done].
Qed.

(** ** The run up to the experiment *)

Lemma learn_calls_not_rl_quiet (d : list (event Obj)) :
  no_work d -> learn_calls d = [] /\ tested d = [].
Proof.
  induction 1 as [|ev d Hev _ (IH1 & IH2)]; [done|].
  change (ev :: d) with ([ev] ++ d). unfold tested in *.
  rewrite learn_calls_app, omap_app, IH1, IH2. by destruct ev.
Qed.

Lemma main_prelude (a : Args) (s : state) :
  record_or_display a = true -> qlearning_has_record a = true ->
  ratio_in_range a = true -> seed_contract a ->
  (forall w, td_observations (tools_load_data (training_data a) w).2 ≠ []) ->
  exists (s2 : state) (d : list (event Obj)) (w : World)
         (td : Dataset Obj) (jp_model : Obj),
    td = (tools_load_data (training_data a) w).2
    /\ main a s
       = mbind (plotting (set_recordto (normalize_recordto (recordto a)) a))
           (experiment (set_recordto (normalize_recordto (recordto a)) a)
              td jp_model) s2
    /\ log s2 = log s ++ d
    /\ Forall (fun ev => quiet ev = true) d
    /\ Forall (fun ev => is_rl ev = false) d
    /\ learn_calls d = [] /\ tested d = [].
Proof.
  intros H1 H2 H3 Hseed Hobs.
  destruct (configure_run a s H1 H2 H3 Hseed) as (s1 & d1 & Hc & Hl1 & Hd1).
  destruct (configure_run_log a s s1 _ Hc) as (d1' & Hl1' & _ & Hq1 & Hr1).
  assert (d1' = d1) as ->
    by (rewrite Hl1 in Hl1'; by apply app_inv_head in Hl1').
  destruct (learn_calls_not_rl_quiet d1 Hd1) as [Hlc1 Hts1].
  pose proof (Hobs (world s1)) as Hne.
  destruct (tools_load_data (training_data a) (world s1)) as [w1 td] eqn:E.
  cbn [snd] in Hne.
  assert (exists obs0, td_observations td !! Z.to_nat 0 = Some obs0)
    as [obs0 Hobs0].
  { destruct (td_observations td) as [|obs0 obs]; [done|]. by exists obs0. }
  destruct (jonschkowski_priors_Priors_model (shape obs0) (state_dim a)
              (learning_rate a) (l1_reg a) (weights a) f1em6 (tanh_units a) w1)
    as [w2 m] eqn:Em.
  exists {| world := w2;
            log := log s1
                   ++ [ LoadData (training_data a) td;
                        PriorsModel (shape obs0) (state_dim a)
                          (learning_rate a) (l1_reg a) (weights a) f1em6
                          (tanh_units a) m ] |},
         (d1 ++ [ LoadData (training_data a) td;
                  PriorsModel (shape obs0) (state_dim a)
                    (learning_rate a) (l1_reg a) (weights a) f1em6
                    (tanh_units a) m ]),
         (world s1), td, m.
  split; [by rewrite E|]. split; [|split].
  - unfold main, mbind, M_bind at 1 2. rewrite Hc.
    unfold load_and_build, mbind, M_bind at 1 2, call, lift.
    cbn [training_data set_recordto state_dim learning_rate l1_reg weights
         tanh_units].
    rewrite E. cbv beta iota.
    rewrite (list_index_nat _ 0 obs0) by done. cbv beta iota.
    unfold M_bind. cbn [world log]. rewrite Em. cbn [mret M_ret].
    by rewrite <- app_assoc.
  - cbn [log]. by rewrite Hl1, <- app_assoc.
  - repeat split.
    + apply Forall_app_2; [done|]. by repeat constructor.
    + apply Forall_app_2; [done|]. by repeat constructor.
    + by rewrite learn_calls_app, Hlc1.
    + unfold tested in *. by rewrite omap_app, Hts1.
Qed.

Lemma truthy_of_ne (r : string) : r ≠ "" -> str_truthy r = true.
Proof. by destruct r. Qed.

Lemma accepted_qlearning (a : Args) :
  recordto a ≠ "" ->
  record_or_display a = true /\ qlearning_has_record a = true.
Proof.
  intros Hr. unfold record_or_display, qlearning_has_record.
  rewrite (truthy_of_ne _ Hr). split; [done|apply orb_true_r].
Qed.

Lemma data_contract_observations (a : Args) :
  data_contract a ->
  forall w, td_observations (tools_load_data (training_data a) w).2 ≠ [].
Proof.
  intros Hd w. by destruct (dataset_ok_inv _ (Hd w)) as (H & _).
Qed.

(** ** Numbers of epochs that are not positive *)

(** X10. In Q-learning mode a negative number of epochs stops the run at
    line 146 with numpy's [ValueError]: the data is loaded and the model
    built, but no controller, no environment, no training and no
    fitted Q iteration is ever called. *)
Theorem negative_epochs (a : Args) (s : state) :
  qlearning a = true -> recordto a ≠ "" ->
  ratio_in_range a = true -> seed_contract a ->
  (forall w, td_observations (tools_load_data (training_data a) w).2 ≠ []) ->
  num_epochs a < 0 ->
  exists (s' : state) (d : list (event Obj)),
    main a s = (s', Raise (ValueError "negative dimensions are not allowed"))
    /\ log s' = log s ++ d
    /\ Forall (fun ev => is_rl ev = false) d
    /\ learn_calls d = [].
Proof.
  intros Hq Hr Hratio Hseed Hobs HN.
  destruct (accepted_qlearning a Hr) as [H1 H2].
  destruct (main_prelude a s H1 H2 Hratio Hseed Hobs)
    as (s2 & d & w & td & m & _ & Hmain & Hl & _ & Hrl & Hlc & _).
  exists s2, d. split; [|done].
  rewrite Hmain. unfold mbind, M_bind, experiment.
  cbn [qlearning set_recordto]. rewrite Hq. cbn [negb].
  unfold qlearning_experiment, mbind, M_bind, lift, np_zeros4.
  cbn [num_epochs set_recordto].
  by destruct (Z.ltb_spec (num_epochs a) 0) as [_|?]; [|lia].
Qed.

Lemma plot_losses_ok (a : Args) (v : Vars) (s : state) :
  length (proportionality_loss_record v)
  = length (temporalcoherence_loss_record v) ->
  length (causality_loss_record v)
  = length (temporalcoherence_loss_record v) ->
  length (repeatability_loss_record v)
  = length (temporalcoherence_loss_record v) ->
  ok_with (plot_losses a v) s
    (fun d _ =>
       no_work d /\ inputs d = []
       /\ saved_files d
          = if str_truthy (recordto a) then
              [ recordto a +:+ (if negb (qlearning a) then "loss_history"
                                else "loss_history_ql") +:+ ".png" ]
            else []).
Proof.
  intros Hp Hc Hr. unfold plot_losses, show_and_save.
  destruct (display a), (qlearning a), (str_truthy (recordto a));
    unfold when; cbn [negb];
    repeat first
      [ ok_step
      | rewrite np_zip_same by (rewrite ?length_zip_with; lia) ];
    (split; [by repeat constructor|]); split; reflexivity.
Qed.

(** X11. In Q-learning mode with zero epochs nothing is trained and no
    policy is fitted or run; the script still builds the controller and
    the environment, saves an empty loss history, and then stops with a
    [NameError] at line 289, where [states] was never assigned. *)
Theorem zero_epochs_name_error (a : Args) (s : state)
    (w0 w1 w2 w3 : float) :
  qlearning a = true -> recordto a ≠ "" ->
  ratio_in_range a = true -> seed_contract a -> data_contract a ->
  weights a = [w0; w1; w2; w3] ->
  num_epochs a = 0 ->
  exists (s' : state) (d : list (event Obj)),
    main a s = (s', Raise (NameError "states"))
    /\ log s' = log s ++ d
    /\ learn_calls d = [] /\ rollouts d = []
    /\ saved_files d
       = [normalize_recordto (recordto a) +:+ "loss_history_ql.png"].
Proof.
  intros Hq Hr Hratio Hseed Hdata Hw HN.
  destruct (accepted_qlearning a Hr) as [H1 H2].
  destruct (main_prelude a s H1 H2 Hratio Hseed
              (data_contract_observations a Hdata))
    as (s2 & d & w & td & m & Htd & Hmain & Hl & Hquiet & _ & Hlc & _).
  destruct (quiet_projections d Hquiet) as (Hsf & _ & Hro).
  destruct (dataset_ok_inv td) as (_ & [thetarange Hx] & _).
  { rewrite Htd. apply Hdata. }
  set (a' := set_recordto (normalize_recordto (recordto a)) a) in *.
  assert (Hexp : ok_with (experiment a' td m) s2
                   (fun d1 v => v = run_vars [] /\ learn_calls d1 = []
                                /\ rollouts d1 = [] /\ saved_files d1 = [])).
  { unfold experiment. change (qlearning a') with (qlearning a).
    rewrite Hq. cbn [negb].
    unfold qlearning_experiment, make_env, experiment_loop.
    change (num_epochs a') with (num_epochs a). rewrite HN.
    change (np_zeros4 0 n_qlearnings n_test_episodes n_test_steps)
      with (Ok (@nil (list (list (list float))))).
    change (np_zeros1 0) with (Ok (@nil float)).
    rewrite (list_index_nat _ 2 thetarange) by (done || lia).
    change (range 0) with (@nil Z). cbn [for_each].
    repeat ok_step. done. }
  destruct Hexp as (s3 & d1 & v & Hrun & Hl3 & -> & Hlc1 & Hro1 & Hsf1).
  destruct (plot_losses_ok a'
              {| states := None;
                 temporalcoherence_loss_record := np_div_scalar [] w0;
                 proportionality_loss_record := np_div_scalar [] w1;
                 causality_loss_record := np_div_scalar [] w2;
                 repeatability_loss_record := np_div_scalar [] w3;
                 test_performance := [] |} s3)
    as (s4 & d2 & [] & Hpl & Hl4 & Hnw & _ & Hsf2); try done.
  exists s4, (d ++ d1 ++ d2). split; [|split].
  - rewrite Hmain. unfold mbind, M_bind at 1. rewrite Hrun.
    unfold plotting, mbind, M_bind at 1, unweight_losses.
    change (weights a') with (weights a). rewrite Hw.
    change (list_index [w0; w1; w2; w3] 2) with (Ok w2).
    change (list_index [w0; w1; w2; w3] 3) with (Ok w3).
    change (list_index [w0; w1; w2; w3] 1) with (Ok w1).
    change (list_index [w0; w1; w2; w3] 0) with (Ok w0).
    unfold mbind, M_bind, lift. cbn [mret M_ret run_vars states
      temporalcoherence_loss_record proportionality_loss_record
      causality_loss_record repeatability_loss_record test_performance
      final_states last map].
    by rewrite Hpl.
  - by rewrite Hl4, Hl3, Hl, <- !app_assoc.
  - rewrite !learn_calls_app, !rollouts_app, !saved_files_app.
    rewrite Hlc, Hlc1, Hro, Hro1, Hsf, Hsf1, Hsf2.
    rewrite (learn_calls_no_work d2 Hnw), (rollouts_no_work d2 Hnw).
    repeat split; try done.
    change (recordto a') with (normalize_recordto (recordto a)).
    rewrite str_truthy_normalize, (truthy_of_ne _ Hr).
    change (qlearning a') with (qlearning a). by rewrite Hq.
Qed.

(** ** Complete runs *)





Lemma rollouts_setup (a : Args) (td : Dataset Obj)
    (jp_model thetarange controller env : Obj) :
  rollouts (setup_log a td jp_model thetarange controller env) = [].
Proof. reflexivity. Qed.





(** ** Runs that stop in the first epoch *)

Lemma raises_lift {A} (e : exn) (st : state)
    (Q : list (event Obj) -> exn -> Prop) :
  Q [] e -> raises_with (lift (Raise e) : M A) st Q.
Proof. intros H. exists st, [], e. by rewrite app_nil_r. Qed.

Lemma raises_here {A B} (m : M A) (k : A -> M B) (st : state)
    (Q : list (event Obj) -> exn -> Prop) :
  raises_with m st Q -> raises_with (mbind k m) st Q.
Proof.
  intros (st' & d & e & Hm & Hl & HQ). exists st', d, e.
  unfold mbind, M_bind. by rewrite Hm.
Qed.

Lemma raises_after {A B} (m : M A) (k : A -> M B) (st : state)
    (Q : list (event Obj) -> exn -> Prop) :
  ok_with m st
    (fun d1 a => forall st1,
       raises_with (k a) st1 (fun d2 e => Q (d1 ++ d2) e)) ->
  raises_with (mbind k m) st Q.
Proof.
  intros (st1 & d1 & a & Hm & Hl1 & Hk).
  destruct (Hk st1) as (st2 & d2 & e & Hka & Hl2 & HQ).
  exists st2, (d1 ++ d2), e. unfold mbind, M_bind. rewrite Hm.
  split; [done|]. split; [|done]. by rewrite Hl2, Hl1, <- app_assoc.
Qed.

Lemma range_head (n : Z) : 1 <= n -> exists l, range n = 0 :: l.
Proof.
  intros Hn. unfold range. destruct (Z.to_nat n) as [|k] eqn:E; [lia|].
  cbn [seq map]. by eexists.
Qed.

Lemma np_set1_head (a : array1) (v : float) :
  a ≠ [] -> exists a', np_set1 a 0 v = Ok a'.
Proof.
  destruct a as [|x a]; [done|]. intros _. exists (v :: a).
  apply (np_set1_middle [] a x v 0). reflexivity.
Qed.

Lemma replicate_ne_nil {A} (n : Z) (x : A) :
  1 <= n -> replicate (Z.to_nat n) x ≠ [].
Proof. intros Hn. destruct (Z.to_nat n) eqn:E; [lia|done]. Qed.

Lemma raises_mono {A} (m : M A) (st : state)
    (Q Q' : list (event Obj) -> exn -> Prop) :
  (forall d e, Q d e -> Q' d e) -> raises_with m st Q -> raises_with m st Q'.
Proof. intros H (st' & d & e & Hm & Hl & HQ). exists st', d, e. auto. Qed.

Lemma np_zeros1_ok (n : Z) :
  0 <= n -> np_zeros1 n = Ok (replicate (Z.to_nat n) zero).
Proof.
  intros Hn. unfold np_zeros1. by destruct (Z.ltb_spec n 0); [lia|].
Qed.

Lemma np_zeros4_ok (n : Z) :
  0 <= n ->
  exists t, np_zeros4 n n_qlearnings n_test_episodes n_test_steps = Ok t.
Proof.
  intros Hn. unfold np_zeros4. destruct (Z.ltb_spec n 0); [lia|].
  by eexists.
Qed.

Lemma np_reshape2_size (a : list float) (rows cols : Z) :
  0 <= rows -> 0 <= cols -> length a ≠ Z.to_nat (rows * cols) ->
  np_reshape2 a rows cols = Raise (ValueError "cannot reshape array").
Proof.
  intros Hr Hc Hlen. unfold np_reshape2.
  destruct (Z.eqb_spec (Z.of_nat (length a)) (rows * cols)) as [E|_].
  - exfalso. apply Hlen. rewrite <- E. by rewrite Nat2Z.id.
  - by rewrite andb_false_r.
Qed.

(** Up to the first training call: the arrays are allocated, the
    environment is built, and the first iteration starts with loss
    records that have room for it. *)
Lemma first_iteration (a : Args) (td : Dataset Obj) (jp_model thetarange : Obj)
    (s : state) (R : list (event Obj) -> exn -> Prop) :
  ea_xztrange (td_args td) !! 2%nat = Some thetarange ->
  1 <= num_epochs a ->
  (forall (env : Obj) (v : Vars) (st : state),
      temporalcoherence_loss_record v ≠ [] ->
      proportionality_loss_record v ≠ [] ->
      causality_loss_record v ≠ [] ->
      repeatability_loss_record v ≠ [] ->
      raises_with (learning_iteration a td jp_model env 0 v) st R) ->
  raises_with (qlearning_experiment a td jp_model) s
    (fun d e => exists (controller env : Obj) (d1 : list (event Obj)),
       d = setup_log a td jp_model thetarange controller env ++ d1 /\ R d1 e).
Proof.
  intros Hx HN Hit. unfold qlearning_experiment.
  destruct (np_zeros4_ok (num_epochs a)) as [t ->]; [lia|].
  rewrite np_zeros1_ok by lia.
  apply raises_after, ok_lift. intros st1.
  apply raises_after. unfold make_env.
  rewrite (list_index_nat _ 2 thetarange) by (done || lia).
  apply ok_bind, ok_lift. intros st2.
  apply ok_bind, ok_call. intros w1 st3. apply ok_call. intros w2 st4.
  do 4 (apply raises_after, ok_lift; intros ?).
  unfold experiment_loop. destruct (range_head _ HN) as [l ->].
  cbn [for_each]. apply raises_here.
  eapply raises_mono; [|apply Hit; cbn; by apply replicate_ne_nil].
  intros d e HR. cbn [app]. eexists _, _, d. split; [|exact HR].
  reflexivity.
Qed.

Lemma saved_files_setup (a : Args) (td : Dataset Obj)
    (jp_model thetarange controller env : Obj) :
  saved_files (setup_log a td jp_model thetarange controller env) = [].
Proof. reflexivity. Qed.

(** Q-learning runs whose first iteration fails. *)
Lemma first_epoch_failure (a : Args) (s : state)
    (R : list (event Obj) -> exn -> Prop) :
  qlearning a = true -> recordto a ≠ "" ->
  ratio_in_range a = true -> seed_contract a -> data_contract a ->
  1 <= num_epochs a ->
  (forall (td : Dataset Obj) (jp_model env : Obj) (v : Vars) (st : state),
      dataset_ok td = true ->
      temporalcoherence_loss_record v ≠ [] ->
      proportionality_loss_record v ≠ [] ->
      causality_loss_record v ≠ [] ->
      repeatability_loss_record v ≠ [] ->
      raises_with
        (learning_iteration (set_recordto (normalize_recordto (recordto a)) a)
           td jp_model env 0 v) st R) ->
  exists (s' : state) (d d1 : list (event Obj)) (e : exn),
    main a s = (s', Raise e) /\ log s' = log s ++ d
    /\ learn_calls d = learn_calls d1 /\ rollouts d = rollouts d1
    /\ saved_files d = saved_files d1 /\ R d1 e.
Proof.
  intros Hq Hr Hratio Hseed Hdata HN Hit.
  destruct (accepted_qlearning a Hr) as [H1 H2].
  destruct (main_prelude a s H1 H2 Hratio Hseed
              (data_contract_observations a Hdata))
    as (s2 & d0 & w & td & m & Htd & Hmain & Hl & Hquiet & _ & Hlc & _).
  destruct (quiet_projections d0 Hquiet) as (Hsf & Hin & Hro).
  assert (Hok : dataset_ok td = true) by (rewrite Htd; apply Hdata).
  destruct (dataset_ok_inv td Hok) as (_ & [thetarange Hx] & _).
  set (a' := set_recordto (normalize_recordto (recordto a)) a) in *.
  destruct (first_iteration a' td m thetarange s2 R Hx HN)
    as (s3 & d & e & Hrun & Hl3 & controller & env & d1 & -> & HR).
  { intros env v st. by apply Hit. }
  exists s3, (d0 ++ setup_log a' td m thetarange controller env ++ d1), d1, e.
  split; [|split].
  - rewrite Hmain. unfold mbind, M_bind, experiment.
    change (qlearning a') with (qlearning a). rewrite Hq. cbn [negb].
    by rewrite Hrun.
  - by rewrite Hl3, Hl, <- !app_assoc.
  - rewrite !learn_calls_app, !rollouts_app, !saved_files_app.
    rewrite Hlc, Hro, Hsf, learn_calls_setup, rollouts_setup,
      saved_files_setup.
    done.
Qed.

(** X14. A training call that returns no validation loss stops the
    Q-learning experiment at line 211: the run ends with an [IndexError]
    after exactly one training call, before any rollout, and no figure is
    saved. *)
Theorem empty_history_aborts (a : Args) (s : state) :
  qlearning a = true -> recordto a ≠ "" ->
  ratio_in_range a = true -> seed_contract a -> data_contract a ->
  1 <= num_epochs a ->
  (forall td m bs r d vr w,
      val_t_loss (tools_learn_states td m 1 bs r d vr w).2.2 = []) ->
  exists (s' : state) (d : list (event Obj)),
    main a s = (s', Raise (IndexError "list index out of range"))
    /\ log s' = log s ++ d
    /\ length (learn_calls d) = 1%nat
    /\ rollouts d = [] /\ saved_files d = [].
Proof.
  intros Hq Hr Hratio Hseed Hdata HN Hempty.
  destruct (first_epoch_failure a s
              (fun d e => e = IndexError "list index out of range"
                          /\ length (learn_calls d) = 1%nat
                          /\ rollouts d = [] /\ saved_files d = [])
              Hq Hr Hratio Hseed Hdata HN)
    as (s' & d & d1 & e & Hmain & Hl & Hlc & Hro & Hsf & -> & H1 & H2 & H3).
  { intros td m env v st _ _ _ _ _. unfold learning_iteration.
    apply raises_after, ok_call. intros w.
    pose proof (Hempty td m (batch_size a) "" (display a)
                  (validation_ratio a) w) as He.
    destruct (tools_learn_states _ _ _ _ _ _ _ w) as [w' [sts h]].
    cbn [fst snd] in He. intros st1. apply raises_here.
    rewrite He. by apply raises_lift. }
  exists s', d. by rewrite Hlc, Hro, Hsf.
Qed.

(** X15. A rollout that does not return [20 * 25] rewards stops the
    Q-learning experiment at the reshape of line 245: the run ends with
    a [ValueError] in the first trial of the first epoch, after one
    training call and one rollout, and no figure is saved. *)
Theorem short_rollout_aborts (a : Args) (s : state) :
  qlearning a = true -> recordto a ≠ "" ->
  ratio_in_range a = true -> seed_contract a -> data_contract a ->
  training_contract ->
  1 <= num_epochs a ->
  (forall ag env w,
      length (stats_rewards (run_in_env ag env n_test_episodes None w).2)
      ≠ Z.to_nat (n_test_episodes * n_test_steps)) ->
  exists (s' : state) (d : list (event Obj)) (msg : string),
    main a s = (s', Raise (ValueError msg))
    /\ log s' = log s ++ d
    /\ length (learn_calls d) = 1%nat
    /\ length (rollouts d) = 1%nat /\ saved_files d = [].
Proof.
  intros Hq Hr Hratio Hseed Hdata Ht HN Hshort.
  destruct (first_epoch_failure a s
              (fun d e => e = ValueError "cannot reshape array"
                          /\ length (learn_calls d) = 1%nat
                          /\ length (rollouts d) = 1%nat
                          /\ saved_files d = [])
              Hq Hr Hratio Hseed Hdata HN)
    as (s' & d & d1 & e & Hmain & Hl & Hlc & Hro & Hsf & -> & H1 & H2 & H3).
  { intros td m env v st Hok Hvt Hvp Hvc Hvr. unfold learning_iteration.
    destruct (dataset_ok_inv td Hok) as (_ & _ & [masked Hm]).
    apply raises_after, ok_call. intros w.
    pose proof (Ht td m (batch_size a) "" (display a)
                  (validation_ratio a) w) as (Ht1 & Ht2 & Ht3 & Ht4).
    destruct (tools_learn_states _ _ _ _ _ _ _ w) as [w' [sts h]].
    cbn [fst snd] in *. intros st1.
    rewrite !list_index_first by done.
    apply raises_after, ok_lift; intros ?; cbv beta.
    destruct (np_set1_head _ (first_loss (val_t_loss h)) Hvt) as [rt ->].
    do 2 (apply raises_after, ok_lift; intros ?; cbv beta).
    destruct (np_set1_head _ (first_loss (val_p_loss h)) Hvp) as [rp ->].
    do 2 (apply raises_after, ok_lift; intros ?; cbv beta).
    destruct (np_set1_head _ (first_loss (val_c_loss h)) Hvc) as [rc ->].
    do 2 (apply raises_after, ok_lift; intros ?; cbv beta).
    destruct (np_set1_head _ (first_loss (val_r_loss h)) Hvr) as [rr ->].
    apply raises_after, ok_lift; intros ?; cbv beta.
    apply raises_after.
    { change (plot_epoch 0) with true. unfold when, plot_representation.
      rewrite Hm. apply ok_bind, ok_lift. intros ?. apply ok_perform.
      intros ?. apply raises_here.
      change (range n_qlearnings) with (0 :: map Z.of_nat (seq 1 9)).
      cbn [for_each]. apply raises_here. unfold qlearning_trial.
      do 4 (apply raises_after, ok_call; intros ? ?).
      apply raises_after, ok_call. intros w5.
      match goal with
      | |- context [run_in_env ?ag env n_test_episodes None w5] =>
          pose proof (Hshort ag env w5) as Hlen
      end.
      destruct (run_in_env _ _ _ _ w5) as [w6 stats]. cbn [snd] in Hlen.
      intros ?. apply raises_here.
      rewrite np_reshape2_size by (done || lia). by apply raises_lift. } }
  exists s', d, "cannot reshape array". by rewrite Hlc, Hro, Hsf.
Qed.

(** ** Flags that switch calls off *)

(** X16. Without [-v] nothing is printed: no call of a run is a [print],
    however the run ends. *)
Theorem silent_unless_verbose (a : Args) :
  verbose a = false ->
  emits (fun ev => prints [ev] = []) (main a).
Proof.
  intros Hv. unfold main. apply emits_bind.
  { apply configure_emits; done. }
  intros a' (st & st' & Hret). apply configure_returns in Hret.
  assert (Hv' : verbose a' = false) by (subst a'; exact Hv).
  clear Hret.
  unfold load_and_build, experiment, simple_learning, qlearning_experiment,
    make_env, experiment_loop, learning_iteration, plot_representation,
    qlearning_trial, plotting, unweight_losses, plot_losses, plot_pca,
    plot_rewards, show_and_save.
  repeat (emits_step; try done; rewrite ?Hv' in *; try done).
Qed.

(** X17. Without [-dis] the script never shows a figure and never waits
    for a key, and every collaborator that can display is told not to:
    this holds for every call of a run, however the run ends. *)
Theorem no_window_without_display (a : Args) :
  display a = false ->
  emits (fun ev => interactive ev = false) (main a).
Proof.
  intros Hd. unfold main. apply emits_bind.
  { apply configure_emits; done. }
  intros a' (st & st' & Hret). apply configure_returns in Hret.
  assert (Hd' : display a' = false) by (subst a'; exact Hd).
  clear Hret.
  unfold load_and_build, experiment, simple_learning, qlearning_experiment,
    make_env, experiment_loop, learning_iteration, plot_representation,
    qlearning_trial, plotting, unweight_losses, plot_losses, plot_pca,
    plot_rewards, show_and_save.
  repeat (emits_step; try done; rewrite ?Hd' in *; try done).
Qed.

(** ** The names of the representation plots *)

Lemma plot_name_inj :
  Inj (=) (=) (fun e : Z => "_train_" +:+ str_of_int (e + 1)).
Proof.
  intros x y H. apply (inj (String.app "_train_")) in H.
  unfold str_of_int in H. apply (inj pretty) in H. lia.
Qed.

Lemma NoDup_list_filter {A} (f : A -> bool) (l : list A) :
  NoDup l -> NoDup (List.filter f l).
Proof.
  induction 1 as [|x l Hx Hl IH]; cbn [List.filter]; [constructor|].
  destruct (f x); [|done]. constructor; [|done].
  rewrite list_elem_of_In, filter_In, <- list_elem_of_In. tauto.
Qed.

(** X18. No two representation plots of a Q-learning experiment share a
    name: each plotted epoch writes a plot of its own. *)
Theorem representation_plots_distinct (a : Args) (td : Dataset Obj)
    (jp_model : Obj) (s : state) :
  training_contract -> harness_contract ->
  dataset_ok td = true ->
  0 <= num_epochs a ->
  exists (v : Vars) (s' : state) (d : list (event Obj)),
    qlearning_experiment a td jp_model s = (s', Ok v)
    /\ log s' = log s ++ d
    /\ NoDup (plot_calls d).
Proof.
  intros Ht Hh Hok HN.
  destruct (dataset_ok_inv td Hok) as (_ & [thetarange Hx] & [masked Hm]).
  destruct (qlearning_experiment_run a td jp_model masked thetarange s
              Ht Hh Hm Hx HN)
    as (controller & env & eps & s' & Hlen & _ & Hrun & Hl).
  eexists _, s', _. split; [exact Hrun|]. split; [exact Hl|].
  rewrite plot_calls_app, plot_calls_setup.
  change (epochs_log a td jp_model env masked 0 eps)
    with (epochs_log a td jp_model env masked (Z.of_nat 0) eps).
  rewrite plot_calls_epochs.
  cbn [app]. apply (NoDup_fmap_2 _ (Inj0 := plot_name_inj)), NoDup_list_filter.
  apply (NoDup_fmap_2 Z.of_nat), NoDup_seq.
Qed.

End Extras.

(** * The hypotheses can be met

    Every theorem above is applied to the small instance [Toy]: its
    collaborators honour the contracts, and the arguments of [Toy.args]
    pass the checks. *)

#[local] Existing Instance Toy.collaborators.

Lemma toy_training_contract : training_contract.
Proof. intros td m bs r d vr w. by repeat split. Qed.

Lemma toy_harness_contract : harness_contract.
Proof. intros ag env w. reflexivity. Qed.

Lemma toy_dataset_ok : dataset_ok Toy.td = true.
Proof. reflexivity. Qed.

Lemma toy_data_contract : data_contract Toy.args.
Proof. intros w. reflexivity. Qed.

Lemma toy_seed_contract : seed_contract Toy.args.
Proof. unfold seed_contract, valid_seed. cbn. lia. Qed.

Lemma performance_tensor_populated_witness :
  training_contract /\ harness_contract
  /\ dataset_ok Toy.td = true
  /\ 0 <= num_epochs Toy.args
  /\ (exists t0,
        np_zeros4 (num_epochs Toy.args) n_qlearnings n_test_episodes
          n_test_steps = Ok t0
        /\ shape4 t0 (Z.to_nat (num_epochs Toy.args)) 10 20 25)
  /\ exists (v : Vars) (s' : state) (d : list (event Obj)),
      qlearning_experiment Toy.args Toy.td Toy.jp_model (Toy.start 0) = (s', Ok v)
      /\ log s' = log (Toy.start 0) ++ d
      /\ shape4 (test_performance v) (Z.to_nat (num_epochs Toy.args)) 10 20 25
      /\ length (rollouts d) = (Z.to_nat (num_epochs Toy.args) * 10)%nat
      /\ forall e q i j : nat,
           (e < Z.to_nat (num_epochs Toy.args))%nat -> (q < 10)%nat ->
           (i < 20)%nat -> (j < 25)%nat ->
           exists (stats : Stats) (r : float),
             rollouts d !! (e * 10 + q)%nat = Some stats
             /\ stats_rewards stats !! (i * 25 + j)%nat = Some r
             /\ cell4 (test_performance v) e q i j = Some r.
Proof.
  split; [exact toy_training_contract|].
  split; [exact toy_harness_contract|].
  split; [reflexivity|]. split; [cbn; lia|].
  apply (performance_tensor_populated Toy.args Toy.td Toy.jp_model (Toy.start 0)
           toy_training_contract toy_harness_contract).
  - reflexivity.
  - cbn. lia.
Defined.

Lemma fresh_policy_per_trial_witness :
  training_contract /\ harness_contract
  /\ dataset_ok Toy.td = true
  /\ 0 <= num_epochs Toy.args
  /\ exists (masked : array1) (thetarange controller env : Obj)
            (eps : list epoch_run) (s' : state),
      qlearning_experiment Toy.args Toy.td Toy.jp_model (Toy.start 0)
      = (s', Ok (run_vars eps))
      /\ length eps = Z.to_nat (num_epochs Toy.args)
      /\ Forall (fun ep => length (ep_trials ep) = 10%nat) eps
      /\ log s' = log (Toy.start 0)
                  ++ setup_log Toy.args Toy.td Toy.jp_model thetarange
                       controller env
                  ++ epochs_log Toy.args Toy.td Toy.jp_model env masked 0 eps
      /\ forall (e : Z) (ep : epoch_run) (q : Z) (t : trial_run),
           epoch_log Toy.args Toy.td Toy.jp_model env masked e ep
           = [ LearnStates Toy.jp_model 1 (batch_size Toy.args) ""
                 (display Toy.args) (validation_ratio Toy.args)
                 (ep_states ep, ep_history ep) ]
             ++ plot_log Toy.args Toy.jp_model (ep_states ep) masked e
             ++ trials_log Toy.args Toy.td env (ep_states ep) 0 (ep_trials ep)
           /\ trial_log Toy.args Toy.td env (ep_states ep) q t
              = [ FittedQIteration 100 (td_num_actions Toy.td) (tr_qit t);
                  FitSk (tr_qit t) (ep_states ep) (td_actions_int Toy.td)
                    (td_rewards Toy.td) f0_9 10 true (tr_policy t);
                  PlugPolicy (tr_policy t) (action_space_int env)
                    (tr_plugged t);
                  RoundBotAgent (tr_plugged t) (tr_agent t);
                  RunInEnv (tr_agent t) env 20 None (tr_stats t) ]
                ++ (if verbose Toy.args
                    then [PyPrint q 20 (stats_reward_ep (tr_stats t))]
                    else []).
Proof.
  split; [exact toy_training_contract|].
  split; [exact toy_harness_contract|].
  split; [reflexivity|]. split; [cbn; lia|].
  apply (fresh_policy_per_trial Toy.args Toy.td Toy.jp_model (Toy.start 0)
           toy_training_contract toy_harness_contract).
  - reflexivity.
  - cbn. lia.
Defined.

Lemma validation_losses_recorded_witness :
  training_contract /\ harness_contract
  /\ dataset_ok Toy.td = true
  /\ 0 <= num_epochs Toy.args
  /\ exists (v : Vars) (s' : state) (d : list (event Obj)),
      qlearning_experiment Toy.args Toy.td Toy.jp_model (Toy.start 0)
      = (s', Ok v)
      /\ log s' = log (Toy.start 0) ++ d
      /\ length (learn_calls d) = Z.to_nat (num_epochs Toy.args)
      /\ forall (e : nat) (n : Z) (h : History),
           learn_calls d !! e = Some (n, h) ->
           n = 1
           /\ exists lt lp lc lr : float,
                list_index (val_t_loss h) 0 = Ok lt
                /\ list_index (val_p_loss h) 0 = Ok lp
                /\ list_index (val_c_loss h) 0 = Ok lc
                /\ list_index (val_r_loss h) 0 = Ok lr
                /\ temporalcoherence_loss_record v !! e = Some lt
                /\ proportionality_loss_record v !! e = Some lp
                /\ causality_loss_record v !! e = Some lc
                /\ repeatability_loss_record v !! e = Some lr.
Proof.
  split; [exact toy_training_contract|].
  split; [exact toy_harness_contract|].
  split; [reflexivity|]. split; [cbn; lia|].
  apply (validation_losses_recorded Toy.args Toy.td Toy.jp_model (Toy.start 0)
           toy_training_contract toy_harness_contract).
  - reflexivity.
  - cbn. lia.
Defined.

Lemma loop_runs_num_epochs_witness :
  qlearning Toy.args = true /\ recordto Toy.args ≠ ""
  /\ ratio_in_range Toy.args = true
  /\ seed_contract Toy.args /\ data_contract Toy.args
  /\ training_contract /\ harness_contract
  /\ 0 <= num_epochs Toy.args
  /\ exists (v : Vars) (s' : state) (d : list (event Obj)),
      main Toy.args (Toy.start 0)
      = plotting (set_recordto (normalize_recordto (recordto Toy.args))
                    Toy.args) v s'
      /\ log s' = log (Toy.start 0) ++ d
      /\ length (learn_calls d) = Z.to_nat (num_epochs Toy.args)
      /\ Forall (fun c => c.1 = 1) (learn_calls d)
      /\ length (temporalcoherence_loss_record v)
         = Z.to_nat (num_epochs Toy.args).
Proof.
  assert (Hr : recordto Toy.args ≠ "") by (cbn; discriminate).
  assert (HN : 0 <= num_epochs Toy.args) by (cbn; lia).
  split; [reflexivity|]. split; [exact Hr|]. split; [reflexivity|].
  split; [exact toy_seed_contract|]. split; [exact toy_data_contract|].
  split; [exact toy_training_contract|].
  split; [exact toy_harness_contract|]. split; [exact HN|].
  exact (loop_runs_num_epochs Toy.args (Toy.start 0) eq_refl Hr eq_refl
           toy_seed_contract toy_data_contract toy_training_contract
           toy_harness_contract HN).
Defined.

Lemma representation_plot_epochs_witness :
  training_contract /\ harness_contract
  /\ dataset_ok Toy.td = true
  /\ 0 <= num_epochs Toy.args
  /\ (forall e : Z, plot_epoch e = true <-> e = 0 \/ (5 | e + 1))
  /\ exists (v : Vars) (s' : state) (d : list (event Obj)),
      qlearning_experiment Toy.args Toy.td Toy.jp_model (Toy.start 0)
      = (s', Ok v)
      /\ log s' = log (Toy.start 0) ++ d
      /\ plot_calls d
         = map (fun e => "_train_" +:+ str_of_int (e + 1))
             (List.filter plot_epoch (range (num_epochs Toy.args))).
Proof.
  split; [exact toy_training_contract|].
  split; [exact toy_harness_contract|].
  split; [reflexivity|]. split; [cbn; lia|].
  apply (representation_plot_epochs Toy.args Toy.td Toy.jp_model (Toy.start 0)
           toy_training_contract toy_harness_contract).
  - reflexivity.
  - cbn. lia.
Defined.

Lemma validation_ratio_check_witness :
  (* a ratio of 0.0 *)
  (F64.leb (validation_ratio
              (Toy.args_of true "out" false zero (Some 1)
                 [one; Toy.f5; one; Toy.f5])) zero = true
   \/ F64.leb one (validation_ratio
                     (Toy.args_of true "out" false zero (Some 1)
                        [one; Toy.f5; one; Toy.f5])) = true)
  /\ (forall s : state,
      exists (s' : state) (d : list (event Obj)) (e : exn),
        main (Toy.args_of true "out" false zero (Some 1)
                [one; Toy.f5; one; Toy.f5]) s = (s', Raise e)
        /\ log s' = log s ++ d /\ no_work d
        /\ (e = Exception msg_record_or_display
            \/ e = Exception msg_record_qlearning
            \/ e = ValueError msg_validation_ratio)
        /\ (record_or_display (Toy.args_of true "out" false zero (Some 1)
                                 [one; Toy.f5; one; Toy.f5]) = true ->
            qlearning_has_record (Toy.args_of true "out" false zero (Some 1)
                                    [one; Toy.f5; one; Toy.f5]) = true ->
            e = ValueError msg_validation_ratio))
  (* a ratio of 0.1 *)
  /\ F64.ltb zero (validation_ratio Toy.args) = true
  /\ F64.ltb (validation_ratio Toy.args) one = true
  /\ ratio_in_range Toy.args = true
  /\ forall s : state,
       (configure Toy.args s).2 ≠ Raise (ValueError msg_validation_ratio).
Proof.
  split; [left; reflexivity|]. split.
  - apply (proj1 (validation_ratio_check
                    (Toy.args_of true "out" false zero (Some 1)
                       [one; Toy.f5; one; Toy.f5]))).
    left. reflexivity.
  - split; [reflexivity|]. split; [reflexivity|].
    apply (proj2 (validation_ratio_check Toy.args)); reflexivity.
Defined.

Lemma qlearning_needs_record_witness :
  qlearning (Toy.args_of true "" true Toy.f0_1 (Some 1)
               [one; Toy.f5; one; Toy.f5]) = true
  /\ recordto (Toy.args_of true "" true Toy.f0_1 (Some 1)
                 [one; Toy.f5; one; Toy.f5]) = ""
  /\ (forall s : state,
        main (Toy.args_of true "" true Toy.f0_1 (Some 1)
                [one; Toy.f5; one; Toy.f5]) s
        = (s, Raise (Exception msg_record_qlearning)))
  /\ recordto Toy.args ≠ ""
  /\ qlearning_has_record Toy.args = true
  /\ forall s : state,
       (configure Toy.args s).2 ≠ Raise (Exception msg_record_qlearning).
Proof.
  split; [reflexivity|]. split; [reflexivity|]. split.
  - apply (proj1 (qlearning_needs_record
                    (Toy.args_of true "" true Toy.f0_1 (Some 1)
                       [one; Toy.f5; one; Toy.f5]))); reflexivity.
  - assert (Hr : recordto Toy.args ≠ "") by (cbn; discriminate).
    split; [exact Hr|].
    exact (proj2 (qlearning_needs_record Toy.args) Hr).
Defined.

Lemma record_or_display_required_witness :
  recordto (Toy.args_of false "" false Toy.f0_1 (Some 1)
              [one; Toy.f5; one; Toy.f5]) = ""
  /\ display (Toy.args_of false "" false Toy.f0_1 (Some 1)
                [one; Toy.f5; one; Toy.f5]) = false
  /\ (forall s : state,
        main (Toy.args_of false "" false Toy.f0_1 (Some 1)
                [one; Toy.f5; one; Toy.f5]) s
        = (s, Raise (Exception msg_record_or_display)))
  /\ (recordto Toy.args ≠ "" \/ display Toy.args = true)
  /\ record_or_display Toy.args = true
  /\ forall s : state,
       (configure Toy.args s).2 ≠ Raise (Exception msg_record_or_display).
Proof.
  split; [reflexivity|]. split; [reflexivity|]. split.
  - apply (proj1 (record_or_display_required
                    (Toy.args_of false "" false Toy.f0_1 (Some 1)
                       [one; Toy.f5; one; Toy.f5]))); reflexivity.
  - assert (Hr : recordto Toy.args ≠ "" \/ display Toy.args = true)
      by (left; cbn; discriminate).
    split; [exact Hr|].
    exact (proj2 (record_or_display_required Toy.args) Hr).
Defined.

Lemma losses_unweighted_witness :
  weights Toy.args = [one; Toy.f5; one; Toy.f5]
  /\ unweight_losses Toy.args (run_vars []) (Toy.start 0)
     = (Toy.start 0,
        Ok {| states := states (run_vars []);
              temporalcoherence_loss_record :=
                map (fun x => F64.div x one)
                  (temporalcoherence_loss_record (run_vars []));
              proportionality_loss_record :=
                map (fun x => F64.div x Toy.f5)
                  (proportionality_loss_record (run_vars []));
              causality_loss_record :=
                map (fun x => F64.div x one)
                  (causality_loss_record (run_vars []));
              repeatability_loss_record :=
                map (fun x => F64.div x Toy.f5)
                  (repeatability_loss_record (run_vars []));
              test_performance := test_performance (run_vars []) |})
  /\ F64.is_zero zero = true
  /\ Forall (fun x => F64.is_finite x = true) [one; zero]
  /\ Forall (fun y => F64.is_finite y = false) (np_div_scalar [one; zero] zero).
Proof.
  split; [reflexivity|]. split.
  - apply (proj1 (losses_unweighted Toy.args (run_vars []) (Toy.start 0))).
    reflexivity.
  - split; [reflexivity|].
    assert (Hf : Forall (fun x => F64.is_finite x = true) [one; zero])
      by (repeat constructor).
    split; [exact Hf|].
    exact (proj1 (proj2 (losses_unweighted Toy.args (run_vars [])
                           (Toy.start 0))) zero [one; zero] eq_refl Hf).
Defined.

Lemma seed_source_witness :
  seed Toy.args = Some 1 /\ 1 <> 0 /\ valid_seed 1
  /\ (exists s' : state,
        seed_random Toy.args (Toy.start 1700000000) = (s', Ok tt)
        /\ log s' = log (Toy.start 1700000000) ++ [NpRandomSeed 1])
  /\ seed (Toy.args_of true "out" false Toy.f0_1 (Some 0)
             [one; Toy.f5; one; Toy.f5]) = Some 0
  /\ valid_seed 1700000000
  /\ exists s' : state,
       seed_random (Toy.args_of true "out" false Toy.f0_1 (Some 0)
                      [one; Toy.f5; one; Toy.f5]) (Toy.start 1700000000)
       = (s', Ok tt)
       /\ log s' = log (Toy.start 1700000000)
                   ++ [TimeTime 1700000000; NpRandomSeed 1700000000].
Proof.
  assert (H1 : (1 : Z) <> 0) by lia.
  assert (Hv1 : valid_seed 1) by (unfold valid_seed; lia).
  assert (Hv2 : valid_seed 1700000000) by (unfold valid_seed; lia).
  split; [reflexivity|]. split; [exact H1|]. split; [exact Hv1|]. split.
  - exact (proj1 (seed_source Toy.args (Toy.start 1700000000))
             1 eq_refl H1 Hv1).
  - split; [reflexivity|]. split; [exact Hv2|].
    exact (proj1 (proj2 (seed_source
                           (Toy.args_of true "out" false Toy.f0_1 (Some 0)
                              [one; Toy.f5; one; Toy.f5])
                           (Toy.start 1700000000)))
             (or_intror eq_refl) Hv2).
Defined.

(** ** The further properties, on small instances *)



Lemma no_record_without_destination_witness :
  recordto (Toy.args_of false "" true Toy.f0_1 (Some 1)
              [one; Toy.f5; one; Toy.f5]) = ""
  /\ emits (fun ev => no_record ev = true)
       (main (Toy.args_of false "" true Toy.f0_1 (Some 1)
                [one; Toy.f5; one; Toy.f5])).
Proof.
  split; [reflexivity|].
  apply (no_record_without_destination
           (Toy.args_of false "" true Toy.f0_1 (Some 1)
              [one; Toy.f5; one; Toy.f5])).
  reflexivity.
Defined.

Lemma no_rl_without_qlearning_witness :
  qlearning (Toy.args_of false "out" true Toy.f0_1 (Some 1)
               [one; Toy.f5; one; Toy.f5]) = false
  /\ emits (fun ev => is_rl ev = false)
       (main (Toy.args_of false "out" true Toy.f0_1 (Some 1)
                [one; Toy.f5; one; Toy.f5])).
Proof.
  split; [reflexivity|].
  apply (no_rl_without_qlearning
           (Toy.args_of false "out" true Toy.f0_1 (Some 1)
              [one; Toy.f5; one; Toy.f5])).
  reflexivity.
Defined.

Lemma masked_rewards_lookup_witness :
  length (td_rewards Toy.td) = length (td_episode_starts Toy.td)
  /\ exists masked : array1,
      masked_rewards Toy.td = Ok masked
      /\ length masked = pred (length (td_rewards Toy.td))
      /\ forall (i : nat) (r : float) (b : bool),
           td_rewards Toy.td !! i = Some r ->
           td_episode_starts Toy.td !! S i = Some b ->
           masked !! i = Some (F64.mul r (of_bool (negb b))).
Proof.
  split; [reflexivity|].
  apply (masked_rewards_lookup Toy.td). reflexivity.
Defined.


Lemma rejected_run_creates_directory_witness :
  recordto (Toy.args_of true "out" false zero (Some 1)
              [one; Toy.f5; one; Toy.f5]) ≠ ""
  /\ ratio_in_range (Toy.args_of true "out" false zero (Some 1)
                       [one; Toy.f5; one; Toy.f5]) = false
  /\ main (Toy.args_of true "out" false zero (Some 1)
             [one; Toy.f5; one; Toy.f5]) (Toy.start 0)
     = ({| world := 0; log := [OsMakedirs "out/" true] |},
        Raise (ValueError msg_validation_ratio)).
Proof.
  assert (Hr : recordto (Toy.args_of true "out" false zero (Some 1)
                           [one; Toy.f5; one; Toy.f5]) ≠ "")
    by (cbn; discriminate).
  split; [exact Hr|]. split; [reflexivity|].
  exact (rejected_run_creates_directory
           (Toy.args_of true "out" false zero (Some 1)
              [one; Toy.f5; one; Toy.f5]) (Toy.start 0) Hr eq_refl).
Defined.

Lemma seed_out_of_range_witness :
  ~ valid_seed (-1)
  /\ main (Toy.args_of true "out" false Toy.f0_1 (Some (-1))
             [one; Toy.f5; one; Toy.f5]) (Toy.start 0)
     = (after_makedirs
          (Toy.args_of true "out" false Toy.f0_1 (Some (-1))
             [one; Toy.f5; one; Toy.f5]) (Toy.start 0),
        Raise (ValueError "Seed must be between 0 and 2**32 - 1")).
Proof.
  assert (Hx : ~ valid_seed (-1)) by (unfold valid_seed; lia).
  split; [exact Hx|].
  exact (seed_out_of_range
           (Toy.args_of true "out" false Toy.f0_1 (Some (-1))
              [one; Toy.f5; one; Toy.f5]) (Toy.start 0) (-1)
           eq_refl eq_refl eq_refl eq_refl Hx).
Defined.

Lemma empty_dataset_aborts_witness :
  seed_contract (C := ToyWith.no_data)
    (ToyWith.args_n true "out" "" false 2 (Some 1))
  /\ (forall w,
        td_observations
          (tools_load_data (Collaborators := ToyWith.no_data)
             "data.npz" w).2 = [])
  /\ exists (s' : @state ToyWith.no_data)
            (d : list (event Z)) (td : Dataset Z) (msg : string),
      main (C := ToyWith.no_data)
        (ToyWith.args_n true "out" "" false 2 (Some 1))
        (@Build_state ToyWith.no_data 0 [])
      = (s', Raise (IndexError msg))
      /\ log s' = [] ++ d ++ [LoadData "data.npz" td]
      /\ no_work (C := ToyWith.no_data) d.
Proof.
  assert (Hs : seed_contract (C := ToyWith.no_data)
                 (ToyWith.args_n true "out" "" false 2 (Some 1)))
    by (unfold seed_contract, valid_seed; cbn; lia).
  split; [exact Hs|]. split; [reflexivity|].
  exact (empty_dataset_aborts (C := ToyWith.no_data)
           (ToyWith.args_n true "out" "" false 2 (Some 1))
           (@Build_state ToyWith.no_data 0 [])
           eq_refl eq_refl eq_refl Hs (fun _ => eq_refl)).
Defined.

Lemma negative_epochs_witness :
  num_epochs (ToyWith.args_n true "out" "" false (-1) (Some 1)) < 0
  /\ exists (s' : state) (d : list (event Obj)),
      main (ToyWith.args_n true "out" "" false (-1) (Some 1)) (Toy.start 0)
      = (s', Raise (ValueError "negative dimensions are not allowed"))
      /\ log s' = log (Toy.start 0) ++ d
      /\ Forall (fun ev => is_rl ev = false) d
      /\ learn_calls d = [].
Proof.
  assert (Hr : recordto (ToyWith.args_n true "out" "" false (-1) (Some 1)) ≠ "")
    by (cbn; discriminate).
  assert (Hs : seed_contract (ToyWith.args_n true "out" "" false (-1) (Some 1)))
    by (unfold seed_contract, valid_seed; cbn; lia).
  assert (HN : num_epochs (ToyWith.args_n true "out" "" false (-1) (Some 1)) < 0)
    by (cbn; lia).
  split; [exact HN|].
  apply (negative_epochs (ToyWith.args_n true "out" "" false (-1) (Some 1))
           (Toy.start 0) eq_refl Hr eq_refl Hs); [|exact HN].
  intros w. cbn. discriminate.
Defined.

Lemma zero_epochs_name_error_witness :
  num_epochs (ToyWith.args_n true "out" "" false 0 (Some 1)) = 0
  /\ data_contract (ToyWith.args_n true "out" "" false 0 (Some 1))
  /\ exists (s' : state) (d : list (event Obj)),
      main (ToyWith.args_n true "out" "" false 0 (Some 1)) (Toy.start 0)
      = (s', Raise (NameError "states"))
      /\ log s' = log (Toy.start 0) ++ d
      /\ learn_calls d = [] /\ rollouts d = []
      /\ saved_files d = ["out/loss_history_ql.png"].
Proof.
  assert (Hr : recordto (ToyWith.args_n true "out" "" false 0 (Some 1)) ≠ "")
    by (cbn; discriminate).
  assert (Hs : seed_contract (ToyWith.args_n true "out" "" false 0 (Some 1)))
    by (unfold seed_contract, valid_seed; cbn; lia).
  assert (Hd : data_contract (ToyWith.args_n true "out" "" false 0 (Some 1)))
    by (intros w; reflexivity).
  split; [reflexivity|]. split; [exact Hd|].
  exact (zero_epochs_name_error
           (ToyWith.args_n true "out" "" false 0 (Some 1)) (Toy.start 0)
           one Toy.f5 one Toy.f5 eq_refl Hr eq_refl Hs Hd eq_refl eq_refl).
Defined.



Lemma empty_history_aborts_witness :
  (forall td m bs r d vr w,
      val_t_loss
        (tools_learn_states (Collaborators := ToyWith.no_losses)
           td m 1 bs r d vr w).2.2 = [])
  /\ exists (s' : @state ToyWith.no_losses) (d : list (event Z)),
      main (C := ToyWith.no_losses)
        (ToyWith.args_n true "out" "" false 2 (Some 1))
        (@Build_state ToyWith.no_losses 0 [])
      = (s', Raise (IndexError "list index out of range"))
      /\ log s' = [] ++ d
      /\ length (learn_calls (C := ToyWith.no_losses) d) = 1%nat
      /\ rollouts (C := ToyWith.no_losses) d = []
      /\ saved_files (C := ToyWith.no_losses) d = [].
Proof.
  assert (Hr : recordto (ToyWith.args_n true "out" "" false 2 (Some 1)) ≠ "")
    by (cbn; discriminate).
  assert (Hs : seed_contract (C := ToyWith.no_losses)
                 (ToyWith.args_n true "out" "" false 2 (Some 1)))
    by (unfold seed_contract, valid_seed; cbn; lia).
  assert (Hd : data_contract (C := ToyWith.no_losses)
                 (ToyWith.args_n true "out" "" false 2 (Some 1)))
    by (intros w; reflexivity).
  assert (HN : 1 <= num_epochs (ToyWith.args_n true "out" "" false 2 (Some 1)))
    by (cbn; lia).
  split; [reflexivity|].
  exact (empty_history_aborts (C := ToyWith.no_losses)
           (ToyWith.args_n true "out" "" false 2 (Some 1))
           (@Build_state ToyWith.no_losses 0 [])
           eq_refl Hr eq_refl Hs Hd HN
           (fun _ _ _ _ _ _ _ => eq_refl)).
Defined.

Lemma short_rollout_aborts_witness :
  training_contract (C := ToyWith.short_rollout)
  /\ (forall ag env w,
        length (stats_rewards
                  (run_in_env (Collaborators := ToyWith.short_rollout)
                     ag env 20 None w).2) ≠ 500%nat)
  /\ exists (s' : @state ToyWith.short_rollout) (d : list (event Z))
            (msg : string),
      main (C := ToyWith.short_rollout)
        (ToyWith.args_n true "out" "" false 2 (Some 1))
        (@Build_state ToyWith.short_rollout 0 [])
      = (s', Raise (ValueError msg))
      /\ log s' = [] ++ d
      /\ length (learn_calls (C := ToyWith.short_rollout) d) = 1%nat
      /\ length (rollouts (C := ToyWith.short_rollout) d) = 1%nat
      /\ saved_files (C := ToyWith.short_rollout) d = [].
Proof.
  assert (Hr : recordto (ToyWith.args_n true "out" "" false 2 (Some 1)) ≠ "")
    by (cbn; discriminate).
  assert (Hs : seed_contract (C := ToyWith.short_rollout)
                 (ToyWith.args_n true "out" "" false 2 (Some 1)))
    by (unfold seed_contract, valid_seed; cbn; lia).
  assert (Hd : data_contract (C := ToyWith.short_rollout)
                 (ToyWith.args_n true "out" "" false 2 (Some 1)))
    by (intros w; reflexivity).
  assert (Ht : training_contract (C := ToyWith.short_rollout))
    by (intros td m bs r d vr w; by repeat split).
  assert (HN : 1 <= num_epochs (ToyWith.args_n true "out" "" false 2 (Some 1)))
    by (cbn; lia).
  assert (Hshort : forall ag env w,
             length (stats_rewards
                       (run_in_env (Collaborators := ToyWith.short_rollout)
                          ag env 20 None w).2) ≠ 500%nat)
    by (intros ag env w; cbn; lia).
  split; [exact Ht|]. split; [exact Hshort|].
  exact (short_rollout_aborts (C := ToyWith.short_rollout)
           (ToyWith.args_n true "out" "" false 2 (Some 1))
           (@Build_state ToyWith.short_rollout 0 [])
           eq_refl Hr eq_refl Hs Hd Ht HN Hshort).
Defined.

Lemma silent_unless_verbose_witness :
  verbose Toy.args = false
  /\ emits (fun ev => prints [ev] = []) (main Toy.args).
Proof.
  split; [reflexivity|]. apply (silent_unless_verbose Toy.args). reflexivity.
Defined.

Lemma no_window_without_display_witness :
  display Toy.args = false
  /\ emits (fun ev => interactive ev = false) (main Toy.args).
Proof.
  split; [reflexivity|].
  apply (no_window_without_display Toy.args). reflexivity.
Defined.

Lemma representation_plots_distinct_witness :
  training_contract /\ harness_contract
  /\ dataset_ok Toy.td = true
  /\ 0 <= num_epochs Toy.args
  /\ exists (v : Vars) (s' : state) (d : list (event Obj)),
      qlearning_experiment Toy.args Toy.td Toy.jp_model (Toy.start 0)
      = (s', Ok v)
      /\ log s' = log (Toy.start 0) ++ d
      /\ NoDup (plot_calls d).
Proof.
  split; [exact toy_training_contract|].
  split; [exact toy_harness_contract|].
  split; [reflexivity|]. split; [cbn; lia|].
  apply (representation_plots_distinct Toy.args Toy.td Toy.jp_model
           (Toy.start 0) toy_training_contract toy_harness_contract).
  - reflexivity.
  - cbn. lia.
Defined.
